(** * Chat proxies with a rolling conversation summary

    A shallow embedding of the FastAPI services of the repository:

    - [thread/app.py] and [thread/openai_service.py]: the stateful variant,
      which keeps one process-wide summary string and refreshes it after
      every turn;
    - [sdk/app.py] and [sdk/openai_service.py]: the plain proxy, whose
      [helpers] module is not among the sources;
    - [streaming/helpers.py]: the message validator of the streaming proxy;
    - [streaming/app.py] and [streaming/openai_service.py]: the streaming
      proxy, with its generator of server-sent events.

    Constructing an [OpenAIService] is taken to succeed.

    The OpenAI client is an external collaborator.  It is a parameter of the
    development: a function from the request and the state of the outside
    world to an outcome and a new state of the world.  Message texts are
    [str], as the annotations of the handlers say.  Console output
    ([print]) is not part of the model. *)

From Stdlib Require Import String Ascii ZArith List.
From Stdlib Require DecimalString.
From stdpp Require Import base strings gmap.

Open Scope string_scope.

(** ** Python strings *)

(** The line feed written [\n] in the source. *)
Definition nl : string := String "010"%char EmptyString.

(** Truth value of a [str]: only the empty string is falsy. *)
Definition truthy (s : string) : bool :=
  match s with
  | EmptyString => false
  | String _ _ => true
  end.

(** [a or b] on strings. *)
Definition py_or (a b : string) : string := if truthy a then a else b.

(** [needle in haystack] on strings, by scanning every start position. *)
Fixpoint starts_with (p s : string) : bool :=
  match p, s with
  | EmptyString, _ => true
  | String a p', String b s' => if Ascii.eqb a b then starts_with p' s' else false
  | String _ _, EmptyString => false
  end.

Fixpoint contains (needle haystack : string) : bool :=
  starts_with needle haystack ||
  match haystack with
  | EmptyString => false
  | String _ rest => contains needle rest
  end.

(** [occurs_in x s]: the text [x] appears verbatim somewhere in [s]. *)
Definition occurs_in (x s : string) : Prop :=
  exists before after, s = before +:+ x +:+ after.

(** ** Exceptions *)

(** The exceptions that can reach the handlers.  [APIError] stands for
    whatever the OpenAI client raises (transport, authentication, rate
    limit); it carries the text [str] gives for it. *)
Inductive exn :=
| KeyError (key : string)
| IndexError (msg : string)
| AttributeError (msg : string)
| TypeError (msg : string)
| APIError (msg : string).

(** [str(error)].  A [KeyError] prints the [repr] of the missing key. *)
Definition str (error : exn) : string :=
  match error with
  | KeyError key => "'" +:+ key +:+ "'"
  | IndexError msg => msg
  | AttributeError msg => msg
  | TypeError msg => msg
  | APIError msg => msg
  end.

(** [fastapi.HTTPException(status_code, detail)]. *)
Record HTTPException := mkHTTPException { status_code : Z; detail : string }.

(** What a handler hands to FastAPI: a raised [HTTPException], or a returned
    value, which FastAPI serialises with status 200. *)
Definition handler_result (A : Type) : Type := HTTPException + A.

Definition http_status {A} (r : handler_result A) : Z :=
  match r with
  | inl e => status_code e
  | inr _ => 200
  end.

(** ** The OpenAI objects the services read *)

Module OpenAI.

Record CompletionUsage := mkUsage {
  prompt_tokens : Z;
  completion_tokens : Z;
  total_tokens : Z
}.

Record ChatCompletionMessage := mkMessage { role : string; content : string }.

Record Choice := mkChoice { message : ChatCompletionMessage; index : Z }.

Record ChatCompletion := mkChatCompletion {
  choices : list Choice;
  model : string;
  usage : option CompletionUsage
}.

End OpenAI.

(** ** A state and exception monad

    [M S A] is a computation over a mutable state [S] that returns an [A] or
    raises an exception.  The state reached when the exception was raised
    is kept, as a Python [try] does not roll anything back. *)

Definition M (S A : Type) : Type := S -> (exn + A) * S.

Definition ret {S A} (a : A) : M S A := fun s => (inr a, s).

Definition raise {S A} (e : exn) : M S A := fun s => (inl e, s).

Definition bind {S A B} (m : M S A) (k : A -> M S B) : M S B :=
  fun s =>
    match m s with
    | (inr a, s') => k a s'
    | (inl e, s') => (inl e, s')
    end.

Definition try_except {S A} (body : M S A) (handler : exn -> M S A) : M S A :=
  fun s =>
    match body s with
    | (inr a, s') => (inr a, s')
    | (inl e, s') => handler e s'
    end.

Definition gets {S A} (f : S -> A) : M S A := fun s => (inr (f s), s).

Definition modify {S} (f : S -> S) : M S unit := fun s => (inr tt, f s).

Notation "'let*' x ':=' m 'in' k" := (bind m (fun x => k))
  (at level 10, x name, m at level 100, k at level 200).
Notation "m ';;' k" := (bind m (fun _ => k))
  (at level 100, k at level 200, right associativity).

(** [d[key]] on a [Dict[str, str]]. *)
Definition getitem {S} (d : gmap string string) (key : string) : M S string :=
  match d !! key with
  | Some v => ret v
  | None => raise (KeyError key)
  end.

(** [l[i]] on a list. *)
Definition list_getitem {S A} (l : list A) (i : nat) : M S A :=
  match l !! i with
  | Some x => ret x
  | None => raise (IndexError "list index out of range")
  end.

(** * The stateful variant: [thread/] *)

Module Thread.

(** The dictionary [completion] returns:
    [{"choices": [{"message": {...}, "index": ...}], "model": ..., "usage": ...}].
    It always holds exactly one choice. *)
Record completion_response := mkResponse {
  choice_message : gmap string string;
  choice_index : Z;
  response_model : string;
  response_usage : OpenAI.CompletionUsage
}.

Section Service.

(** State of whatever lies behind the OpenAI client. *)
Context {World : Type}.

(** [self.openai.chat.completions.create(messages=, model=, stream=)]. *)
Variable create :
  list (gmap string string) -> string -> bool -> World -> (exn + OpenAI.ChatCompletion) * World.

(** The module-level variables of [thread/app.py]: the summary, and the
    service object that owns the client. *)
Record State := mkState {
  previous_summarization : string;
  openai_service : World
}.

Definition set_previous_summarization (s : string) : M State unit :=
  modify (fun st => mkState s (openai_service st)).

Definition openai_create (messages : list (gmap string string)) (model : string)
    (stream : bool) : M State OpenAI.ChatCompletion :=
  fun st =>
    let '(r, w) := create messages model stream (openai_service st) in
    (r, mkState (previous_summarization st) w).

(** [chat_completion.usage.model_dump()]. *)
Definition model_dump (u : option OpenAI.CompletionUsage) : M State OpenAI.CompletionUsage :=
  match u with
  | Some u => ret u
  | None => raise (AttributeError "'NoneType' object has no attribute 'model_dump'")
  end.

(** [OpenAIService.completion] of [thread/openai_service.py]: any
    exception is printed and raised again. *)
Definition completion (messages : list (gmap string string)) (model : string)
    (stream : bool) : M State completion_response :=
  try_except
    (let* chat_completion := openai_create messages model stream in
     let* choice0 := list_getitem (OpenAI.choices chat_completion) 0 in
     let* usage_dump := model_dump (OpenAI.usage chat_completion) in
     ret {| choice_message :=
              {[ "role" := OpenAI.role (OpenAI.message choice0);
                 "content" := OpenAI.content (OpenAI.message choice0) ]};
            choice_index := OpenAI.index choice0;
            response_model := OpenAI.model chat_completion;
            response_usage := usage_dump |})
    (fun error => raise error).

(** [create_system_prompt] of [thread/app.py]. *)
Definition create_system_prompt (summarization : string) : gmap string string :=
  {[ "role" := "system";
     "content" :=
       "You are Alice, a helpful assistant who speaks using as few words as possible. "
       +:+ nl +:+ "        "
       +:+ (if truthy summarization
            then "Here is a summary of the conversation so far: " +:+ nl
                 +:+ "    <conversation_summary>" +:+ nl +:+ "      "
                 +:+ summarization +:+ nl +:+ "    </conversation_summary>"
            else EmptyString)
       +:+ " " +:+ nl +:+ "        Let's chat!" ]}.

(** The text of the directive message built by [generate_summarization]. *)
Definition summarization_prompt_content (previous user_content assistant_content : string)
    : string :=
  "Please summarize the following conversation in a concise manner:" +:+ nl
  +:+ "<previous_summary>" +:+ py_or previous "No previous summary"
  +:+ "</previous_summary>" +:+ nl
  +:+ "<current_turn> User: " +:+ user_content +:+ nl
  +:+ "Assistant: " +:+ assistant_content +:+ " </current_turn>" +:+ nl.

(** [generate_summarization] of [thread/app.py]. *)
Definition generate_summarization (user_message assistant_response : gmap string string)
    : M State string :=
  let* previous := gets previous_summarization in
  let* user_content := getitem user_message "content" in
  let* assistant_content := getitem assistant_response "content" in
  let summarization_prompt : gmap string string :=
    {[ "role" := "system";
       "content" := summarization_prompt_content previous user_content assistant_content ]} in
  let* response :=
    completion
      [ summarization_prompt;
        {[ "role" := "user";
           "content" := "Please create/update our conversation summary." ]} ]
      "gpt-4o-mini" false in
  getitem (choice_message response) "content".

(** [except Exception as error: raise HTTPException(500, str(error))]
    around a [try] body. *)
Definition except_500 {A} (body : M State A) : State -> handler_result A * State :=
  fun st =>
    match body st with
    | (inr a, st') => (inr a, st')
    | (inl error, st') => (inl (mkHTTPException 500 (str error)), st')
    end.

(** [POST /api/chat] of [thread/app.py]: the guard [if not
    request.messages], then the [try] block, which reads
    [request.messages[0]] twice. *)
Definition chat (request_messages : list (gmap string string))
    : State -> handler_result completion_response * State :=
  fun st =>
    match request_messages with
    | [] => (inl (mkHTTPException 400 "No messages provided"), st)
    | _ :: _ =>
      except_500
        (let* summarization := gets previous_summarization in
         let system_prompt := create_system_prompt summarization in
         let* message0 := list_getitem request_messages 0 in
         let* assistant_response := completion [system_prompt; message0] "gpt-4o" false in
         let* message0' := list_getitem request_messages 0 in
         let* new_summarization :=
           generate_summarization message0' (choice_message assistant_response) in
         set_previous_summarization new_summarization ;;
         ret assistant_response)
        st
    end.

Definition demo_messages : list (gmap string string) :=
  [ {[ "content" := "Hi! I'm Adam"; "role" := "user" ]};
    {[ "content" := "How are you?"; "role" := "user" ]};
    {[ "content" := "Do you know my name?"; "role" := "user" ]} ].

(** The [for] loop of [demo]; [assistant_response] is the loop-carried
    variable.  An [HTTPException] raised in a turn leaves the loop. *)
Fixpoint demo_loop (messages : list (gmap string string))
    (assistant_response : option completion_response)
    : State -> handler_result (option completion_response) * State :=
  fun st =>
    match messages with
    | [] => (inr assistant_response, st)
    | message :: rest =>
        match
          except_500
            (let* summarization := gets previous_summarization in
             let system_prompt := create_system_prompt summarization in
             let* assistant_response := completion [system_prompt; message] "gpt-4o" false in
             let* new_summarization :=
               generate_summarization message (choice_message assistant_response) in
             set_previous_summarization new_summarization ;;
             ret assistant_response)
            st
        with
        | (inr assistant_response, st') => demo_loop rest (Some assistant_response) st'
        | (inl e, st') => (inl e, st')
        end
    end.

(** [POST /api/demo] of [thread/app.py]: [assistant_response = None], the
    loop over [demo_messages], then [return assistant_response]. *)
Definition demo : State -> handler_result (option completion_response) * State :=
  demo_loop demo_messages None.

End Service.

End Thread.

(** * Message validation: [streaming/helpers.py] *)

Module Helpers.

(** The Python values a decoded JSON body is made of. *)
#[local] Unset Elimination Schemes.
Inductive pyval :=
| PyNone
| PyBool (b : bool)
| PyInt (z : Z)
| PyStr (s : string)
| PyList (l : list pyval)
| PyDict (d : gmap string pyval).
#[local] Set Elimination Schemes.

(** [key in d]. *)
Definition py_in (key : string) (d : gmap string pyval) : bool :=
  match d !! key with
  | Some _ => true
  | None => false
  end.

(** [isinstance(v, str)]. *)
Definition isinstance_str (v : pyval) : bool :=
  match v with
  | PyStr _ => true
  | _ => false
  end.

(** [is_valid_message]: a dict with a ['role'] key and a ['content'] key
    whose value is a [str].  The [and] chain stops at the first false
    conjunct, so [message['content']] is only read when the key is there. *)
Definition is_valid_message (message : pyval) : bool :=
  match message with
  | PyDict d =>
      py_in "role" d &&
      py_in "content" d &&
      match d !! "content" with
      | Some v => isinstance_str v
      | None => false
      end
  | _ => false
  end.

(** A [Dict[str, str]] seen as a Python value: a dict whose values are all
    strings. *)
Definition str_dict (d : gmap string string) : pyval := PyDict (PyStr <$> d).

End Helpers.

(** * The plain proxy: [sdk/]

    The request model types [messages] as [List[Dict[str, str]]]: the
    handler only ever sees dicts of strings. *)

Module Sdk.

(** How a call of the handler ends: with a returned value, answered 200;
    with a raised [HTTPException], answered with its status; or with
    another exception, which leaves the handler. *)
Inductive outcome (A : Type) :=
| Returned (a : A)
| Raised (e : HTTPException)
| Unhandled (e : exn).
Arguments Returned {A} _.
Arguments Raised {A} _.
Arguments Unhandled {A} _.

(** The handler rejected the body: it raised an [HTTPException] with
    status 400. *)
Definition rejected {A} (o : outcome A) : Prop :=
  exists d, o = Raised (mkHTTPException 400 d).

Section Service.

Context {World : Type}.

(** [helpers.is_valid_message] as [sdk/app.py] imports it.  The module
    [sdk/helpers.py] is not among the sources: the test is a parameter. *)
Variable is_valid_message : gmap string string -> bool.

(** [OpenAIService()]: building the synchronous [OpenAI()] client. *)
Variable new_service : World -> (exn + unit) * World.

(** [self.openai.chat.completions.create(messages=, model=)] on that
    synchronous client: the call returns the completion itself. *)
Variable create :
  list (gmap string string) -> string -> World -> (exn + OpenAI.ChatCompletion) * World.

(** [await value] on a value that is no awaitable. *)
Definition await {A} (value : OpenAI.ChatCompletion) : M World A :=
  raise (TypeError "object ChatCompletion can't be used in 'await' expression").

(** [OpenAIService.completion] of [sdk/openai_service.py]: the call to the
    client, the [await] of what it returned, and the handler that prints
    the error and raises it again. *)
Definition completion (messages : list (gmap string string)) (model : string)
    : M World OpenAI.ChatCompletion :=
  try_except
    (let* returned := create messages model in
     let* chat_completion := await returned in
     ret chat_completion)
    (fun error => raise error).

Definition system_prompt : gmap string string :=
  {[ "role" := "system";
     "content" := "You are a helpful assistant who speaks using as fewest words as possible." ]}.

(** [POST /api/chat] of [sdk/app.py]: the two validation guards, the
    service object built outside the [try], then the [try] block.
    [completion] is called with its default model, [gpt-4]. *)
Definition chat (request_messages : list (gmap string string))
    : World -> outcome OpenAI.ChatCompletion * World :=
  fun w =>
    match request_messages with
    | [] => (Raised (mkHTTPException 400 "Invalid or missing messages in request body"), w)
    | _ :: _ =>
        if negb (forallb is_valid_message request_messages)
        then (Raised (mkHTTPException 400 "Invalid message format in request body"), w)
        else
          match new_service w with
          | (inl e, w1) => (Unhandled e, w1)
          | (inr _, w1) =>
              match completion ([system_prompt] ++ request_messages)%list "gpt-4" w1 with
              | (inr answer, w2) => (Returned answer, w2)
              | (inl error, w2) =>
                  (Raised
                     (mkHTTPException 500 "An error occurred while processing your request"),
                   w2)
              end
          end
    end.

End Service.

End Sdk.

(** * Test doubles for the OpenAI client

    Deterministic clients over a world that only counts the calls made. *)

Module Stub.

Definition reply (text : string) : OpenAI.ChatCompletion :=
  {| OpenAI.choices :=
       [ {| OpenAI.message := {| OpenAI.role := "assistant"; OpenAI.content := text |};
            OpenAI.index := 0 |} ];
     OpenAI.model := "stub";
     OpenAI.usage := Some (OpenAI.mkUsage 1 1 2) |}.

(** Answers every request with the same text. *)
Definition constant (text : string)
    : list (gmap string string) -> string -> bool -> nat -> (exn + OpenAI.ChatCompletion) * nat :=
  fun _ _ _ n => (inr (reply text), S n).

(** Answers with the text of the first message it is sent. *)
Definition echo
    : list (gmap string string) -> string -> bool -> nat -> (exn + OpenAI.ChatCompletion) * nat :=
  fun messages _ _ n =>
    (inr (reply (default EmptyString (head messages ≫= (.!! "content")))), S n).

(** Refuses every request with the same error. *)
Definition down (msg : string)
    : list (gmap string string) -> string -> bool -> nat -> (exn + OpenAI.ChatCompletion) * nat :=
  fun _ _ _ n => (inl (APIError msg), S n).

(** Answers the responder model and refuses the summarizer model. *)
Definition summarizer_down (text msg : string)
    : list (gmap string string) -> string -> bool -> nat -> (exn + OpenAI.ChatCompletion) * nat :=
  fun _ model _ n =>
    if String.eqb model "gpt-4o-mini"
    then (inl (APIError msg), S n)
    else (inr (reply text), S n).

(** The same for the plain proxy. *)
Definition sdk_constant (text : string)
    : list (gmap string string) -> string -> nat -> (exn + OpenAI.ChatCompletion) * nat :=
  fun _ _ n => (inr (reply text), S n).

Definition sdk_down (msg : string)
    : list (gmap string string) -> string -> nat -> (exn + OpenAI.ChatCompletion) * nat :=
  fun _ _ n => (inl (APIError msg), S n).

(** A service object that is always built. *)
Definition service_ok (n : nat) : (exn + unit) * nat := (inr tt, S n).

(** The validator of [streaming/helpers.py], on dicts of strings. *)
Definition valid (d : gmap string string) : bool :=
  Helpers.is_valid_message (Helpers.str_dict d).

End Stub.

(** * Instrumenting a client with the log of the calls it receives *)

Module Log.

Record call := mkCall {
  call_messages : list (gmap string string);
  call_model : string;
  call_stream : bool
}.

(** [logged create] behaves as [create] and appends every request to a log
    kept next to the world. *)
Definition logged {World : Type}
    (create : list (gmap string string) -> string -> bool -> World
              -> (exn + OpenAI.ChatCompletion) * World)
    : list (gmap string string) -> string -> bool -> World * list call
      -> (exn + OpenAI.ChatCompletion) * (World * list call) :=
  fun messages model stream wl =>
    let '(r, w') := create messages model stream (fst wl) in
    (r, (w', (snd wl ++ [mkCall messages model stream])%list)).

End Log.

(** * Vocabulary of the properties *)

Module Turn.

Section Calls.

Context {World : Type}.
Variable create :
  list (gmap string string) -> string -> bool -> World -> (exn + OpenAI.ChatCompletion) * World.

(** The completion requested for the user-facing answer of a turn that
    starts in [st] with user message [user_message]. *)
Definition responder_call (user_message : gmap string string) (st : Thread.State)
    : (exn + Thread.completion_response) * Thread.State :=
  Thread.completion create
    [Thread.create_system_prompt (Thread.previous_summarization st); user_message]
    "gpt-4o" false st.

(** The completion requested to refresh the summary [previous] with a turn
    whose contents are [user_content] and [assistant_content]. *)
Definition summarizer_call (previous user_content assistant_content : string)
    (st : Thread.State) : (exn + Thread.completion_response) * Thread.State :=
  Thread.completion create
    [ {[ "role" := "system";
         "content" :=
           Thread.summarization_prompt_content previous user_content assistant_content ]};
      {[ "role" := "user";
         "content" := "Please create/update our conversation summary." ]} ]
    "gpt-4o-mini" false st.

(** The responder completion of the turn fails. *)
Definition responder_fails (user_message : gmap string string) (st : Thread.State) : Prop :=
  exists e st1, responder_call user_message st = (inl e, st1).

(** The responder completion of the turn succeeds and the summarizer
    completion that follows it fails. *)
Definition summarizer_fails (user_message : gmap string string) (st : Thread.State) : Prop :=
  exists resp st1 user_content assistant_content e st2,
    responder_call user_message st = (inr resp, st1) /\
    user_message !! "content" = Some user_content /\
    Thread.choice_message resp !! "content" = Some assistant_content /\
    summarizer_call (Thread.previous_summarization st) user_content assistant_content st1
      = (inl e, st2).

(** The turn hands the answer of its responder completion to the caller. *)
Definition returns_assistant_message (user_message : gmap string string)
    (st : Thread.State) : Prop :=
  exists resp st1,
    responder_call user_message st = (inr resp, st1) /\
    fst (Thread.chat create [user_message] st) = inr resp.

(** A deterministic client: its answer depends on the request alone, not on
    the state of the world. *)
Definition deterministic : Prop :=
  forall messages model stream w1 w2,
    fst (create messages model stream w1) = fst (create messages model stream w2).

End Calls.

(** What the summary update embeds for the previous summary, in the words
    of the specification: the summary itself, or a marker when it is empty. *)
Definition summary_or_marker (previous : string) : string :=
  if bool_decide (previous = EmptyString) then "No previous summary" else previous.

End Turn.

Module Validation.

Import Helpers.

(** The roles of a [Message] in the data model of the specification. *)
Definition recognized_role (r : string) : bool :=
  bool_decide (r = "system") || bool_decide (r = "user") || bool_decide (r = "assistant").

(** Validity of one element as the specification words it: a string
    [content] and a recognized [role]. *)
Definition spec_valid_message (m : pyval) : bool :=
  match m with
  | PyDict d =>
      match d !! "content", d !! "role" with
      | Some (PyStr _), Some (PyStr r) => recognized_role r
      | _, _ => false
      end
  | _ => false
  end.

(** Validity of a body as the specification words it: a non-empty list of
    valid elements. *)
Definition spec_valid_body (messages : list pyval) : bool :=
  match messages with
  | [] => false
  | _ :: _ => forallb spec_valid_message messages
  end.

(** What [is_valid_message] decides: a dict with some ['role'] entry and a
    ['content'] entry that is a string. *)
Definition has_role_and_text (m : pyval) : Prop :=
  exists d text, m = PyDict d /\ is_Some (d !! "role") /\ d !! "content" = Some (PyStr text).

(** What [is_valid_message] decides on a dict of strings: both entries are
    there. *)
Definition has_role_and_content (d : gmap string string) : Prop :=
  is_Some (d !! "role") /\ is_Some (d !! "content").

(** The handler did not reject the body: its status is not 400. *)
Definition accepted {A} (r : handler_result A) : Prop := http_status r <> 400%Z.

End Validation.

Module Prompt.

(** The persona instruction: what [create_system_prompt] writes before and
    after the place of the summary block. *)
Definition persona_head : string :=
  "You are Alice, a helpful assistant who speaks using as few words as possible. "
  +:+ nl +:+ "        ".

Definition persona_tail : string := " " +:+ nl +:+ "        Let's chat!".

(** The delimiters of the summary block. *)
Definition block_open : string :=
  "Here is a summary of the conversation so far: " +:+ nl
  +:+ "    <conversation_summary>" +:+ nl +:+ "      ".

Definition block_close : string := nl +:+ "    </conversation_summary>".

End Prompt.

(** * Concrete requests and states *)

Module Sample.

Import Helpers.

(** The request body [{"messages": [{"role": "user", "content": "hi"}]}]. *)
Definition hi : gmap string string := {[ "role" := "user"; "content" := "hi" ]}.

(** The same content under another role and with one more entry. *)
Definition hi_named : gmap string string :=
  {[ "role" := "assistant"; "content" := "hi"; "name" := "adam" ]}.

Definition hello : gmap string string := {[ "role" := "assistant"; "content" := "Hello." ]}.

(** The state of a freshly started process. *)
Definition fresh : @Thread.State nat := Thread.mkState EmptyString 0.

(** A process that holds a summary. *)
Definition summarized : @Thread.State nat := Thread.mkState "Adam said hi." 7.

(** The same summary in a process whose client was used less. *)
Definition summarized_early : @Thread.State nat := Thread.mkState "Adam said hi." 2.

(** A process whose client logs the requests it receives. *)
Definition summarized_logged : @Thread.State (nat * list Log.call) :=
  Thread.mkState "Adam said hi." (0, []).

(** A client whose summarizer model is out of reach. *)
Definition half_down := Stub.summarizer_down "Hello." "Rate limit reached for gpt-4o-mini".

(** A message of the request model with a role outside system, user and
    assistant. *)
Definition banana : gmap string string := {[ "role" := "banana"; "content" := "hi" ]}.

(** A message of the request model without a role. *)
Definition no_role : gmap string string := {[ "content" := "hi" ]}.

End Sample.

(** * The streaming proxy: [streaming/]

    The clock, the UUID generator and [json.dumps] are parameters, as the
    client is.  A generator is run to its end: what it yields is collected
    in order, next to the world. *)

Module Streaming.

Import Helpers.

(** [uuid.uuid4()], read through [str(u)] and [u.hex]. *)
Record UUID := mkUUID { uuid_str : string; hex : string }.

(** What the client returns for [stream=True]: the chunks it delivers, each
    as its [model_dump()], and the exception that breaks the iteration off,
    if one does. *)
Record AsyncStream := mkStream {
  chunks : list (gmap string pyval);
  failure : option exn
}.

(** The answer of [create] follows the [stream] flag: a stream of chunks,
    or a [ChatCompletion], read through its [model_dump()]. *)
Definition create_result (stream : bool) : Type :=
  if stream then AsyncStream else gmap string pyval.

(** The two responses [chat] returns. *)
Inductive Response :=
| StreamingResponse (content : list string) (media_type : string)
    (headers : gmap string string)
| JSONResponse (content : gmap string pyval).

(** The request model: [messages: List[Dict[str, str]]], and
    [stream: Optional[bool] = False]. *)
Record ChatRequest := mkChatRequest {
  messages : list (gmap string string);
  stream : option bool
}.

(** Truth value of an [Optional[bool]]. *)
Definition truthy_flag (flag : option bool) : bool :=
  match flag with
  | Some b => b
  | None => false
  end.

(** [str(n)] on an [int]. *)
Definition str_int (n : Z) : string := DecimalString.NilZero.string_of_int (Z.to_int n).

(** The state of a running generator: the world, and what was yielded. *)
Record Gen (World : Type) := mkGen { gen_world : World; yielded : list string }.
Arguments mkGen {World} _ _.
Arguments gen_world {World} _.
Arguments yielded {World} _.

(** A computation on the world, run inside a generator. *)
Definition lift {World A} (m : M World A) : M (Gen World) A :=
  fun g =>
    let '(r, w) := m (gen_world g) in
    (r, mkGen w (yielded g)).

(** A call that cannot fail. *)
Definition call {World A} (f : World -> A * World) : M World A :=
  fun w => let '(a, w') := f w in (inr a, w').

(** [yield s]. *)
Definition yield {World} (s : string) : M (Gen World) unit :=
  modify (fun g => mkGen (gen_world g) (yielded g ++ [s])%list).

(** [async with ... :] around [body], for a context manager whose
    [__aenter__] cannot fail and whose [__aexit__] is [aexit] and returns
    nothing: [aexit] runs on every way out, its own exception wins, and an
    exception of the body is otherwise raised again. *)
Definition async_with {S A} (aexit : M S unit) (body : M S A) : M S A :=
  fun s =>
    match body s with
    | (inr a, s') =>
        match aexit s' with
        | (inr _, s'') => (inr a, s'')
        | (inl e, s'') => (inl e, s'')
        end
    | (inl e, s') =>
        match aexit s' with
        | (inr _, s'') => (inl e, s'')
        | (inl e', s'') => (inl e', s'')
        end
    end.

(** [async for chunk in result: body]. *)
Fixpoint async_for {S} (remaining : list (gmap string pyval)) (failure : option exn)
    (body : gmap string pyval -> M S unit) : M S unit :=
  match remaining with
  | [] =>
      match failure with
      | Some e => raise e
      | None => ret tt
      end
  | chunk :: rest => body chunk ;; async_for rest failure body
  end.

(** The framing of one server-sent event: [f"data: {payload}\n\n"]. *)
Definition sse (payload : string) : string := "data: " +:+ payload +:+ nl +:+ nl.

(** The first chunk of every stream.  [t_id] and [t_created] are the two
    readings of the clock, [u] the UUID drawn for the fingerprint. *)
Definition starting_chunk (t_id t_created : Z) (u : UUID) : pyval :=
  PyDict
    {[ "id" := PyStr ("chatcmpl-" +:+ str_int t_id);
       "object" := PyStr "chat.completion.chunk";
       "created" := PyInt t_created;
       "model" := PyStr "gpt-4";
       "system_fingerprint" := PyStr ("fp_" +:+ substring 0 10 (hex u));
       "choices" :=
         PyList
           [ PyDict
               {[ "index" := PyInt 0;
                  "delta" :=
                    PyDict {[ "role" := PyStr "assistant";
                              "content" := PyStr "starting response" ]};
                  "logprobs" := PyNone;
                  "finish_reason" := PyNone ]} ] ]}.

(** The chunk that reports a failure of the stream. *)
Definition error_chunk (t_id t_created : Z) (u : UUID) : pyval :=
  PyDict
    {[ "id" := PyStr ("chatcmpl-" +:+ str_int t_id);
       "object" := PyStr "chat.completion.chunk";
       "created" := PyInt t_created;
       "model" := PyStr "gpt-4";
       "system_fingerprint" := PyStr ("fp_" +:+ substring 0 10 (hex u));
       "choices" :=
         PyList
           [ PyDict
               {[ "index" := PyInt 0;
                  "delta" :=
                    PyDict {[ "content" := PyStr "An error occurred during streaming" ]};
                  "logprobs" := PyNone;
                  "finish_reason" := PyStr "stop" ]} ] ]}.

Definition system_prompt : gmap string string :=
  {[ "role" := "system";
     "content" := "You are a helpful assistant who speaks using as fewest words as possible." ]}.

Section Service.

Context {World : Type}.

(** [self.openai.chat.completions.create(messages=, model=, stream=)]. *)
Variable create :
  list (gmap string string) -> string -> forall stream : bool, World
  -> (exn + create_result stream) * World.

(** [self.openai.close()]. *)
Variable close : World -> (exn + unit) * World.

(** [int(datetime.now().timestamp())]. *)
Variable now : World -> Z * World.

(** [uuid.uuid4()]. *)
Variable uuid4 : World -> UUID * World.

(** [json.dumps]. *)
Variable dumps : pyval -> string.

(** [OpenAIService.completion] of [streaming/openai_service.py]: the error
    is printed and raised again. *)
Definition completion (messages : list (gmap string string)) (model : string)
    (stream : bool)
    : M World (create_result stream) :=
  try_except (create messages model stream) (fun error => raise error).

(** [stream_response] of [streaming/app.py].  [completion] is called with
    its default model, [gpt-4]. *)
Definition stream_response (messages : list (gmap string string))
    (conversation_uuid : string)
    : M (Gen World) unit :=
  let* t_id := lift (call now) in
  let* t_created := lift (call now) in
  let* u := lift (call uuid4) in
  yield (sse (dumps (starting_chunk t_id t_created u))) ;;
  try_except
    (async_with (lift close)
       (let* result := lift (completion messages "gpt-4" true) in
        async_for (chunks result) (failure result)
          (fun chunk => yield (sse (dumps (PyDict chunk))))))
    (fun error =>
       let* t_id := lift (call now) in
       let* t_created := lift (call now) in
       let* u := lift (call uuid4) in
       yield (sse (dumps (error_chunk t_id t_created u)))).

(** [POST /api/chat] of [streaming/app.py].  The generator handed to
    [StreamingResponse] is run to its end for the content. *)
Definition chat (request : ChatRequest) : World -> handler_result Response * World :=
  fun w =>
    match messages request with
    | [] => (inl (mkHTTPException 400 "Invalid or missing messages in request body"), w)
    | _ :: _ =>
        if negb (forallb (fun msg => is_valid_message (str_dict msg)) (messages request))
        then (inl (mkHTTPException 400 "Invalid message format in request body"), w)
        else
          let '(u, w1) := uuid4 w in
          let conversation_uuid := uuid_str u in
          let messages := ([system_prompt] ++ messages request)%list in
          if truthy_flag (stream request)
          then
            let '(_, g) := stream_response messages conversation_uuid (mkGen w1 []) in
            (inr (StreamingResponse (yielded g) "text/event-stream"
                    {[ "X-Conversation-UUID" := conversation_uuid;
                       "Cache-Control" := "no-cache";
                       "Connection" := "keep-alive" ]}),
             gen_world g)
          else
            match
              async_with close
                (let* response := completion messages "gpt-4" false in
                 ret (JSONResponse
                        (<["conversationUUID" := PyStr conversation_uuid]> response)))
                w1
            with
            | (inr response, w2) => (inr response, w2)
            | (inl error, w2) =>
                (inl (mkHTTPException 500 "An error occurred while processing your request"),
                 w2)
            end
    end.

End Service.

End Streaming.

(** * Vocabulary of the streaming properties *)

Module Events.

Import Helpers.

Section Drawing.

Context {World : Type}.
Variable now : World -> Z * World.
Variable uuid4 : World -> Streaming.UUID * World.
Variable dumps : pyval -> string.

(** The event made of a chunk built by [build] from two readings of the
    clock and one UUID, all taken from [w] on, and the world they leave. *)
Definition draw (build : Z -> Z -> Streaming.UUID -> pyval) (w : World) : string * World :=
  let '(t_id, w1) := now w in
  let '(t_created, w2) := now w1 in
  let '(u, w3) := uuid4 w2 in
  (Streaming.sse (dumps (build t_id t_created u)), w3).

(** The event that relays one chunk of the client. *)
Definition relay (chunk : gmap string pyval) : string :=
  Streaming.sse (dumps (PyDict chunk)).

End Drawing.

(** The chunks the client delivered, for an outcome of the streamed
    completion. *)
Definition delivered (outcome : exn + Streaming.AsyncStream) : list (gmap string pyval) :=
  match outcome with
  | inl _ => []
  | inr s => Streaming.chunks s
  end.

(** The stream broke: the completion was refused, the iteration raised, or
    closing the client raised. *)
Definition broken (outcome : exn + Streaming.AsyncStream) (closed : exn + unit) : bool :=
  match outcome, closed with
  | inr s, inr _ =>
      match Streaming.failure s with
      | Some _ => true
      | None => false
      end
  | _, _ => true
  end.

(** An event with the framing of a server-sent event. *)
Definition framed (event : string) : Prop := exists payload, event = Streaming.sse payload.

End Events.

(** * Test doubles for the streaming proxy *)

Module StreamStub.

Import Helpers.

Definition clock (n : nat) : Z * nat := ((1700000000 + Z.of_nat n)%Z, S n).

Definition uuid4 (n : nat) : Streaming.UUID * nat :=
  (Streaming.mkUUID "123e4567-e89b-42d3-a456-426614174000"
                    "123e4567e89b42d3a456426614174000", S n).

Definition close_ok (n : nat) : (exn + unit) * nat := (inr tt, S n).

(** A serializer that prints the identifier of a chunk only. *)
Definition dumps (v : pyval) : string :=
  match v with
  | PyDict d =>
      match d !! "id" with
      | Some (PyStr s) => s
      | _ => "{}"
      end
  | _ => "null"
  end.

Definition chunk (id : string) : gmap string pyval :=
  {[ "id" := PyStr id; "object" := PyStr "chat.completion.chunk" ]}.

(** Streams [s] when asked to stream, answers [dump] otherwise. *)
Definition client (s : Streaming.AsyncStream) (dump : gmap string pyval)
    : list (gmap string string) -> string -> forall stream : bool, nat
      -> (exn + Streaming.create_result stream) * nat :=
  fun _ _ stream n =>
    (inr (match stream return Streaming.create_result stream with
          | true => s
          | false => dump
          end), S n).

(** Refuses every request. *)
Definition down (msg : string)
    : list (gmap string string) -> string -> forall stream : bool, nat
      -> (exn + Streaming.create_result stream) * nat :=
  fun _ _ _ n => (inl (APIError msg), S n).

(** A stream of two chunks that runs to its end. *)
Definition two_chunks : Streaming.AsyncStream :=
  Streaming.mkStream [chunk "c1"; chunk "c2"] None.

(** A stream that breaks after its first chunk. *)
Definition cut_short : Streaming.AsyncStream :=
  Streaming.mkStream [chunk "c1"] (Some (APIError "Connection error."))%string.

(** A completion that brings its own [conversationUUID] entry. *)
Definition dump : gmap string pyval :=
  {[ "id" := PyStr "chatcmpl-1"; "conversationUUID" := PyStr "from-upstream" ]}.

Definition streamed : Streaming.ChatRequest :=
  Streaming.mkChatRequest [Sample.hi] (Some true).

Definition plain : Streaming.ChatRequest :=
  Streaming.mkChatRequest [Sample.hi] None.

End StreamStub.

(** * More test doubles for the stateful variant *)

Module Faulty.

(** An answer without any choice. *)
Definition no_choice
    : list (gmap string string) -> string -> bool -> nat -> (exn + OpenAI.ChatCompletion) * nat :=
  fun _ _ _ n =>
    (inr {| OpenAI.choices := []; OpenAI.model := "stub";
            OpenAI.usage := Some (OpenAI.mkUsage 1 0 1) |}, S n).

(** An answer without usage. *)
Definition no_usage
    : list (gmap string string) -> string -> bool -> nat -> (exn + OpenAI.ChatCompletion) * nat :=
  fun _ _ _ n =>
    (inr {| OpenAI.choices := OpenAI.choices (Stub.reply "Hello.");
            OpenAI.model := "stub";
            OpenAI.usage := None |}, S n).

(** Echoes the first [budget] requests and refuses the ones after. *)
Definition echo_until (budget : nat)
    : list (gmap string string) -> string -> bool -> nat -> (exn + OpenAI.ChatCompletion) * nat :=
  fun messages model stream n =>
    if Nat.ltb n budget
    then Stub.echo messages model stream n
    else (inl (APIError "You exceeded your current quota."), S n).

(** A first message without content. *)
Definition no_content : gmap string string := {[ "role" := "user" ]}.

End Faulty.

(** * Properties *)

(** ** Strings *)

Lemma append_cons (c : ascii) (a b : string) : String c a +:+ b = String c (a +:+ b).
Proof. reflexivity. Qed.

Lemma append_assoc (a b c : string) : (a +:+ b) +:+ c = a +:+ b +:+ c.
Proof.
  induction a as [|x a IH]; [reflexivity|]. rewrite !append_cons. now rewrite IH.
Qed.

Lemma truthy_false (s : string) : truthy s = false <-> s = EmptyString.
Proof. destruct s; simpl; split; intros H; congruence. Qed.

Lemma truthy_true (s : string) : truthy s = true <-> s <> EmptyString.
Proof. destruct s; simpl; split; intros H; congruence. Qed.

Lemma starts_with_spec (p s : string) :
  starts_with p s = true <-> exists rest, s = p +:+ rest.
Proof.
  revert s. induction p as [|a p IH]; intros s; simpl.
  - split; [intros _; now exists s | reflexivity].
  - destruct s as [|b s].
    + split; [discriminate | intros [rest H]; rewrite append_cons in H; discriminate].
    + destruct (Ascii.eqb_spec a b) as [->|Hne].
      * rewrite IH. split; intros [rest H]; exists rest; rewrite append_cons in *; congruence.
      * split; [discriminate | intros [rest H]; rewrite append_cons in H; congruence].
Qed.

Lemma contains_unfold (x s : string) :
  contains x s =
  starts_with x s || match s with EmptyString => false | String _ rest => contains x rest end.
Proof. destruct s; reflexivity. Qed.

Lemma contains_spec (x s : string) : contains x s = true <-> occurs_in x s.
Proof.
  unfold occurs_in. split.
  - induction s as [|c s IH]; rewrite contains_unfold; intros H;
      apply orb_true_iff in H as [H|H].
    + apply starts_with_spec in H as [rest ->]. now exists EmptyString, rest.
    + discriminate.
    + apply starts_with_spec in H as [rest ->]. now exists EmptyString, rest.
    + destruct (IH H) as (before & after & ->). now exists (String c before), after.
  - intros (before & after & ->). induction before as [|c before IH].
    + rewrite contains_unfold. apply orb_true_iff. left.
      apply starts_with_spec. now exists after.
    + rewrite append_cons, contains_unfold, IH. apply orb_true_r.
Qed.

Lemma not_contains_spec (x s : string) : contains x s = false -> ~ occurs_in x s.
Proof. intros H Hocc. apply contains_spec in Hocc. congruence. Qed.

(** ** The completion service of the stateful variant *)

Section ThreadService.

Context {World : Type}.
Variable create :
  list (gmap string string) -> string -> bool -> World -> (exn + OpenAI.ChatCompletion) * World.

#[local] Abbreviation State := (@Thread.State World).
#[local] Abbreviation completion := (Thread.completion create).
#[local] Abbreviation generate_summarization := (Thread.generate_summarization create).
#[local] Abbreviation chat := (Thread.chat create).
#[local] Abbreviation responder_call := (Turn.responder_call create).
#[local] Abbreviation summarizer_call := (Turn.summarizer_call create).

Implicit Types (st : State) (messages : list (gmap string string)).
Implicit Types (user_message : gmap string string).

(** [completion] spelled out on the outcome of the client. *)
Lemma completion_unfold messages model stream st :
  completion messages model stream st =
  let prev := Thread.previous_summarization st in
  match create messages model stream (Thread.openai_service st) with
  | (inl e, w) => (inl e, Thread.mkState prev w)
  | (inr cc, w) =>
      match OpenAI.choices cc with
      | [] => (inl (IndexError "list index out of range"), Thread.mkState prev w)
      | choice0 :: _ =>
          match OpenAI.usage cc with
          | None =>
              (inl (AttributeError "'NoneType' object has no attribute 'model_dump'"),
               Thread.mkState prev w)
          | Some u =>
              (inr {| Thread.choice_message :=
                        {[ "role" := OpenAI.role (OpenAI.message choice0);
                           "content" := OpenAI.content (OpenAI.message choice0) ]};
                      Thread.choice_index := OpenAI.index choice0;
                      Thread.response_model := OpenAI.model cc;
                      Thread.response_usage := u |},
               Thread.mkState prev w)
          end
      end
  end.
Proof.
  unfold Thread.completion, try_except, bind, Thread.openai_create.
  destruct (create messages model stream (Thread.openai_service st)) as [[e|cc] w];
    simpl; [reflexivity|].
  unfold list_getitem. destruct (OpenAI.choices cc) as [|choice0 l]; simpl; [reflexivity|].
  unfold Thread.model_dump. destruct (OpenAI.usage cc); reflexivity.
Qed.

(** A completion never touches the summary. *)
Lemma completion_keeps_summary messages model stream st :
  Thread.previous_summarization (snd (completion messages model stream st)) =
  Thread.previous_summarization st.
Proof.
  rewrite completion_unfold.
  destruct (create messages model stream (Thread.openai_service st)) as [[e|cc] w];
    simpl; [reflexivity|].
  destruct (OpenAI.choices cc); [reflexivity|]. destruct (OpenAI.usage cc); reflexivity.
Qed.

(** The message of a completion always has a ['content'] entry. *)
Lemma completion_has_content messages model stream st r st' :
  completion messages model stream st = (inr r, st') ->
  exists c, Thread.choice_message r !! "content" = Some c.
Proof.
  rewrite completion_unfold.
  destruct (create messages model stream (Thread.openai_service st)) as [[e|cc] w];
    simpl; [discriminate|].
  destruct (OpenAI.choices cc) as [|choice0 l]; [discriminate|].
  destruct (OpenAI.usage cc); [|discriminate].
  intros [= <- <-]. simpl. eexists. by simplify_map_eq.
Qed.

(** The answer of a completion depends on the world only through the
    answer of the client. *)
Lemma completion_result_congr messages model stream st1 st2 :
  fst (create messages model stream (Thread.openai_service st1)) =
  fst (create messages model stream (Thread.openai_service st2)) ->
  fst (completion messages model stream st1) = fst (completion messages model stream st2).
Proof.
  rewrite !completion_unfold.
  destruct (create messages model stream (Thread.openai_service st1)) as [r1 w1].
  destruct (create messages model stream (Thread.openai_service st2)) as [r2 w2].
  simpl. intros ->. destruct r2 as [e|cc]; [reflexivity|].
  destruct (OpenAI.choices cc); [reflexivity|]. destruct (OpenAI.usage cc); reflexivity.
Qed.

(** [generate_summarization] spelled out: two dictionary reads, the
    summarizer completion, one more read. *)
Lemma generate_summarization_unfold user_message assistant_response st :
  generate_summarization user_message assistant_response st =
  match user_message !! "content" with
  | None => (inl (KeyError "content"), st)
  | Some user_content =>
      match assistant_response !! "content" with
      | None => (inl (KeyError "content"), st)
      | Some assistant_content =>
          match
            summarizer_call (Thread.previous_summarization st) user_content assistant_content st
          with
          | (inl e, st') => (inl e, st')
          | (inr response, st') =>
              match Thread.choice_message response !! "content" with
              | Some summary => (inr summary, st')
              | None => (inl (KeyError "content"), st')
              end
          end
      end
  end.
Proof.
  unfold Thread.generate_summarization, Turn.summarizer_call, bind, gets, getitem, ret, raise.
  destruct (user_message !! "content"); [|reflexivity].
  destruct (assistant_response !! "content"); [|reflexivity].
  match goal with |- context [Thread.completion create ?ms ?m ?s st] =>
    destruct (Thread.completion create ms m s st) as [[e|response] st'] end;
    [reflexivity|].
  destruct (Thread.choice_message response !! "content"); reflexivity.
Qed.

Lemma generate_summarization_keeps_summary user_message assistant_response st :
  Thread.previous_summarization (snd (generate_summarization user_message assistant_response st))
  = Thread.previous_summarization st.
Proof.
  rewrite generate_summarization_unfold.
  destruct (user_message !! "content") as [uc|]; [|reflexivity].
  destruct (assistant_response !! "content") as [ac|]; [|reflexivity].
  pose proof (completion_keeps_summary
    [ {[ "role" := "system";
         "content" := Thread.summarization_prompt_content (Thread.previous_summarization st) uc ac ]};
      {[ "role" := "user"; "content" := "Please create/update our conversation summary." ]} ]
    "gpt-4o-mini" false st) as Hk.
  unfold Turn.summarizer_call.
  match goal with |- context [Thread.completion create ?ms ?m ?s st] =>
    destruct (Thread.completion create ms m s st) as [[e|response] st'] end;
    simpl in *; [assumption|].
  destruct (Thread.choice_message response !! "content"); assumption.
Qed.

(** [chat] on a non-empty request, spelled out: the responder completion,
    the summary update, the assignment to the global. *)
Lemma chat_unfold user_message rest st :
  chat (user_message :: rest) st =
  match responder_call user_message st with
  | (inl e, st1) => (inl (mkHTTPException 500 (str e)), st1)
  | (inr assistant_response, st1) =>
      match
        generate_summarization user_message (Thread.choice_message assistant_response) st1
      with
      | (inl e, st2) => (inl (mkHTTPException 500 (str e)), st2)
      | (inr new_summarization, st2) =>
          (inr assistant_response,
           Thread.mkState new_summarization (Thread.openai_service st2))
      end
  end.
Proof.
  unfold Thread.chat, Thread.except_500, Turn.responder_call, bind, gets, list_getitem, ret.
  simpl.
  match goal with |- context [Thread.completion create ?ms ?m ?s st] =>
    destruct (Thread.completion create ms m s st) as [[e|assistant_response] st1] end;
    [reflexivity|].
  destruct (Thread.generate_summarization create user_message
              (Thread.choice_message assistant_response) st1) as [[e|new] st2];
    reflexivity.
Qed.

Lemma responder_call_keeps_summary user_message st r st1 :
  responder_call user_message st = (r, st1) ->
  Thread.previous_summarization st1 = Thread.previous_summarization st.
Proof.
  unfold Turn.responder_call. intros H.
  change st1 with (snd (r, st1)). rewrite <- H. apply completion_keeps_summary.
Qed.

Lemma summarizer_call_keeps_summary previous user_content assistant_content st r st1 :
  summarizer_call previous user_content assistant_content st = (r, st1) ->
  Thread.previous_summarization st1 = Thread.previous_summarization st.
Proof.
  unfold Turn.summarizer_call. intros H.
  change st1 with (snd (r, st1)). rewrite <- H. apply completion_keeps_summary.
Qed.

(** A turn that ends in an [HTTPException] has not assigned the summary. *)
Lemma chat_error_keeps_summary messages st e st' :
  chat messages st = (inl e, st') ->
  Thread.previous_summarization st' = Thread.previous_summarization st.
Proof.
  destruct messages as [|user_message rest].
  - simpl. now intros [= _ <-].
  - rewrite chat_unfold.
    destruct (responder_call user_message st) as [[e1|resp] st1] eqn:Hr.
    + intros [= _ <-]. eapply responder_call_keeps_summary, Hr.
    + pose proof (generate_summarization_keeps_summary
                    user_message (Thread.choice_message resp) st1) as Hg.
      destruct (generate_summarization user_message (Thread.choice_message resp) st1)
        as [[e2|new] st2]; [|discriminate].
      intros [= _ <-]. simpl in Hg. rewrite Hg.
      eapply responder_call_keeps_summary, Hr.
Qed.

(** ** Failures of a turn *)

(** The outcome of [chat] when the summarizer completion fails. *)
Lemma chat_summarizer_failure user_message rest st resp st1
    user_content assistant_content e st2 :
  responder_call user_message st = (inr resp, st1) ->
  user_message !! "content" = Some user_content ->
  Thread.choice_message resp !! "content" = Some assistant_content ->
  summarizer_call (Thread.previous_summarization st) user_content assistant_content st1
    = (inl e, st2) ->
  chat (user_message :: rest) st = (inl (mkHTTPException 500 (str e)), st2).
Proof.
  intros Hr Hu Ha Hs.
  pose proof (responder_call_keeps_summary _ _ _ _ Hr) as Hprev.
  now rewrite chat_unfold, Hr, generate_summarization_unfold, Hu, Ha, Hprev, Hs.
Qed.

(** C1, as the code has it: when the responder completion of a turn
    succeeds and the summarizer completion that follows fails, the turn
    ends in an HTTP 500, so the answer of the responder does not reach the
    caller, and the summary is the one the turn started with. *)
Theorem summarizer_failure_fails_turn user_message rest st :
  Turn.summarizer_fails create user_message st ->
  (exists d, fst (chat (user_message :: rest) st) = inl (mkHTTPException 500 d)) /\
  Thread.previous_summarization (snd (chat (user_message :: rest) st))
  = Thread.previous_summarization st.
Proof.
  intros (resp & st1 & uc & ac & e & st2 & Hr & Hu & Ha & Hs).
  rewrite (chat_summarizer_failure _ rest _ _ _ _ _ _ _ Hr Hu Ha Hs). simpl. split.
  - now exists (str e).
  - rewrite <- (responder_call_keeps_summary _ _ _ _ Hr).
    eapply summarizer_call_keeps_summary, Hs.
Qed.

(** C2: when the responder completion of a turn fails, or it succeeds and
    the summarizer completion fails, the summary stored after the turn is
    the summary stored before it. *)
Theorem failed_completion_keeps_summary user_message rest st :
  Turn.responder_fails create user_message st \/
  Turn.summarizer_fails create user_message st ->
  Thread.previous_summarization (snd (chat (user_message :: rest) st))
  = Thread.previous_summarization st.
Proof.
  intros [(e & st1 & Hr) | (resp & st1 & uc & ac & e & st2 & Hr & Hu & Ha & Hs)].
  - rewrite chat_unfold, Hr. simpl. eapply responder_call_keeps_summary, Hr.
  - rewrite (chat_summarizer_failure _ rest _ _ _ _ _ _ _ Hr Hu Ha Hs). simpl.
    rewrite <- (responder_call_keeps_summary _ _ _ _ Hr).
    eapply summarizer_call_keeps_summary, Hs.
Qed.

(** ** The summary update as a function of its inputs *)

(** C3: against a deterministic client, the outcome of the summary update
    is the same for any two runs that agree on the previous summary, on the
    content of the user message and on the content of the assistant
    message, whatever else differs (the other entries of the messages, the
    state of the world). *)
Theorem summary_depends_only_on_triple :
  Turn.deterministic create ->
  forall user1 user2 assistant1 assistant2 st1 st2,
    Thread.previous_summarization st1 = Thread.previous_summarization st2 ->
    user1 !! "content" = user2 !! "content" ->
    assistant1 !! "content" = assistant2 !! "content" ->
    fst (generate_summarization user1 assistant1 st1)
    = fst (generate_summarization user2 assistant2 st2).
Proof.
  intros Hdet user1 user2 assistant1 assistant2 st1 st2 Hprev Hu Ha.
  rewrite !generate_summarization_unfold, Hu, Ha, Hprev.
  destruct (user2 !! "content") as [uc|]; [|reflexivity].
  destruct (assistant2 !! "content") as [ac|]; [|reflexivity].
  unfold Turn.summarizer_call.
  match goal with |- context [Thread.completion create ?ms ?m ?s st1] =>
    pose proof (completion_result_congr ms m s st1 st2 (Hdet _ _ _ _ _)) as Hc;
    destruct (Thread.completion create ms m s st1) as [r1 st1'];
    destruct (Thread.completion create ms m s st2) as [r2 st2'] end.
  simpl in Hc. subst r2. destruct r1 as [e|response]; [reflexivity|].
  destruct (Thread.choice_message response !! "content"); reflexivity.
Qed.

(** ** The request of the stateful variant *)

(** C10: on a request with more than one message, [chat] answers and
    updates the state exactly as on the request that holds the first
    message alone. *)
Theorem chat_reads_first_message_only user_message second rest st :
  chat (user_message :: second :: rest) st = chat [user_message] st.
Proof. now rewrite !chat_unfold. Qed.

(** ** The demo endpoint *)

(** One iteration of the loop of [demo] is [chat] on a one-message request. *)
Lemma demo_loop_cons message rest acc st :
  Thread.demo_loop create (message :: rest) acc st =
  match chat [message] st with
  | (inr assistant_response, st') =>
      Thread.demo_loop create rest (Some assistant_response) st'
  | (inl e, st') => (inl e, st')
  end.
Proof. reflexivity. Qed.

(** C9, as the code has it: [demo] runs the turn of [chat] on three fixed
    user messages, one after the other, each from the state the one before
    left; it stops at the first turn that fails, with the error of that
    turn, and otherwise returns the answer of the third turn. *)
Theorem demo_is_three_chat_turns st :
  Thread.demo create st =
  match chat [ {[ "content" := "Hi! I'm Adam"; "role" := "user" ]} ] st with
  | (inl e, st1) => (inl e, st1)
  | (inr _, st1) =>
      match chat [ {[ "content" := "How are you?"; "role" := "user" ]} ] st1 with
      | (inl e, st2) => (inl e, st2)
      | (inr _, st2) =>
          match chat [ {[ "content" := "Do you know my name?"; "role" := "user" ]} ] st2 with
          | (inl e, st3) => (inl e, st3)
          | (inr third, st3) => (inr (Some third), st3)
          end
      end
  end.
Proof.
  unfold Thread.demo, Thread.demo_messages. rewrite demo_loop_cons.
  destruct (chat _ st) as [[e|r1] st1]; [reflexivity|]. rewrite demo_loop_cons.
  destruct (chat _ st1) as [[e|r2] st2]; [reflexivity|]. rewrite demo_loop_cons.
  destruct (chat _ st2) as [[e|r3] st3]; reflexivity.
Qed.

End ThreadService.

(** ** The system prompt *)

(** C4: the system prompt has role [system]; for a non-empty summary its
    content is the persona instruction with, in between, the summary
    verbatim inside the delimited block; for the empty summary its content
    is the persona instruction alone, free of any summary delimiter. *)
Theorem system_prompt_summary_block (summarization : string) :
  Thread.create_system_prompt summarization !! "role" = Some "system" /\
  (summarization <> EmptyString ->
   Thread.create_system_prompt summarization !! "content" =
   Some (Prompt.persona_head +:+ Prompt.block_open +:+ summarization
         +:+ Prompt.block_close +:+ Prompt.persona_tail)) /\
  (summarization = EmptyString ->
   Thread.create_system_prompt summarization !! "content" =
   Some (Prompt.persona_head +:+ Prompt.persona_tail) /\
   ~ occurs_in "conversation_summary" (Prompt.persona_head +:+ Prompt.persona_tail)).
Proof.
  split; [|split].
  - unfold Thread.create_system_prompt. by simplify_map_eq.
  - intros Hne. apply truthy_true in Hne.
    unfold Thread.create_system_prompt. rewrite Hne. simplify_map_eq. f_equal.
    unfold Prompt.persona_head, Prompt.persona_tail, Prompt.block_open, Prompt.block_close.
    now rewrite !append_assoc.
  - intros ->. split.
    + vm_compute. reflexivity.
    + apply not_contains_spec. vm_compute. reflexivity.
Qed.

Lemma system_prompt_summary_block_witness :
  Thread.create_system_prompt "Adam said hi." !! "content" =
  Some (Prompt.persona_head +:+ Prompt.block_open +:+ "Adam said hi."
        +:+ Prompt.block_close +:+ Prompt.persona_tail) /\
  Thread.create_system_prompt EmptyString !! "content" =
  Some (Prompt.persona_head +:+ Prompt.persona_tail).
Proof.
  split.
  - apply (proj1 (proj2 (system_prompt_summary_block "Adam said hi."))).
    discriminate.
  - apply (proj2 (proj2 (system_prompt_summary_block EmptyString))).
    reflexivity.
Defined.

(** ** The requests sent to the client *)

Section Requests.

Context {World : Type}.
Variable create :
  list (gmap string string) -> string -> bool -> World -> (exn + OpenAI.ChatCompletion) * World.

#[local] Abbreviation log_of st := (snd (Thread.openai_service st)).

Implicit Types (st : @Thread.State (World * list Log.call)).

(** A completion appends its own request to the log, whatever its outcome. *)
Lemma completion_logs messages model stream st :
  log_of (snd (Thread.completion (Log.logged create) messages model stream st))
  = (log_of st ++ [Log.mkCall messages model stream])%list.
Proof.
  rewrite completion_unfold. unfold Log.logged.
  destruct (create messages model stream (fst (Thread.openai_service st))) as [[e|cc] w];
    simpl; [reflexivity|].
  destruct (OpenAI.choices cc); [reflexivity|]. destruct (OpenAI.usage cc); reflexivity.
Qed.

Lemma summary_or_marker_py_or (previous : string) :
  py_or previous "No previous summary" = Turn.summary_or_marker previous.
Proof. destruct previous; reflexivity. Qed.

(** C5: a summary update for a turn with user content [user_content] and
    assistant content [assistant_content] sends the client exactly one
    request: two messages, model [gpt-4o-mini], not streamed.  The first
    message carries the previous summary, or the marker when there is none,
    and the two contents under their labels.  The responder request of
    [chat] names another model, [gpt-4o]. *)
Theorem summary_update_request user_message assistant_response st
    user_content assistant_content :
  user_message !! "content" = Some user_content ->
  assistant_response !! "content" = Some assistant_content ->
  log_of (snd (Thread.generate_summarization (Log.logged create)
                 user_message assistant_response st))
  = (log_of st ++
     [ Log.mkCall
         [ {[ "role" := "system";
              "content" :=
                "Please summarize the following conversation in a concise manner:" +:+ nl
                +:+ "<previous_summary>"
                +:+ Turn.summary_or_marker (Thread.previous_summarization st)
                +:+ "</previous_summary>" +:+ nl
                +:+ "<current_turn> User: " +:+ user_content +:+ nl
                +:+ "Assistant: " +:+ assistant_content +:+ " </current_turn>" +:+ nl ]};
           {[ "role" := "user";
              "content" := "Please create/update our conversation summary." ]} ]
         "gpt-4o-mini" false ])%list
  /\ (forall rest, exists later,
        log_of (snd (Thread.chat (Log.logged create) (user_message :: rest) st))
        = (log_of st ++
           Log.mkCall
             [Thread.create_system_prompt (Thread.previous_summarization st); user_message]
             "gpt-4o" false :: later)%list)
  /\ "gpt-4o-mini" <> "gpt-4o".
Proof.
  intros Hu Ha. split; [|split].
  - rewrite generate_summarization_unfold, Hu, Ha. unfold Turn.summarizer_call.
    match goal with |- context [Thread.completion ?c ?ms ?m ?s st] =>
      pose proof (completion_logs ms m s st) as Hlog;
      destruct (Thread.completion c ms m s st) as [[e|response] st'] end;
      unfold Thread.summarization_prompt_content in Hlog;
      rewrite summary_or_marker_py_or in Hlog; simpl in Hlog.
    + exact Hlog.
    + destruct (Thread.choice_message response !! "content"); exact Hlog.
  - intros rest. rewrite chat_unfold. unfold Turn.responder_call.
    match goal with |- context [Thread.completion ?c ?ms ?m ?s st] =>
      pose proof (completion_logs ms m s st) as Hlog;
      destruct (Thread.completion c ms m s st) as [[e|resp] st1] end;
      simpl in Hlog.
    + exists []. exact Hlog.
    + rewrite generate_summarization_unfold, Hu.
      destruct (Thread.choice_message resp !! "content") as [ac|].
      * unfold Turn.summarizer_call.
        match goal with |- context [Thread.completion ?c ?ms ?m ?s st1] =>
          pose proof (completion_logs ms m s st1) as Hlog1;
          destruct (Thread.completion c ms m s st1) as [[e|response] st2] end;
          simpl in Hlog1; eexists;
          [|destruct (Thread.choice_message response !! "content")];
          simpl; rewrite Hlog1, Hlog, <- app_assoc; reflexivity.
      * exists []. exact Hlog.
  - discriminate.
Qed.

End Requests.

(** ** Validation *)

Lemma is_valid_message_spec (m : Helpers.pyval) :
  Helpers.is_valid_message m = true <-> Validation.has_role_and_text m.
Proof.
  unfold Validation.has_role_and_text. split.
  - destruct m as [| | | | |d]; simpl; try discriminate.
    unfold Helpers.py_in. intros H.
    destruct (d !! "role") as [r|] eqn:Hr; [|discriminate].
    destruct (d !! "content") as [[| | |text| |]|] eqn:Hc; try discriminate.
    exists d, text. rewrite Hr. eauto.
  - intros (d & text & -> & [r Hr] & Hc). simpl. unfold Helpers.py_in. now rewrite Hr, Hc.
Qed.

(** On a dict of strings the type test of [is_valid_message] always
    passes: validity is the presence of the two keys. *)
Lemma is_valid_message_str_dict (d : gmap string string) :
  Helpers.is_valid_message (Helpers.str_dict d) = true <-> Validation.has_role_and_content d.
Proof.
  unfold Validation.has_role_and_content, Helpers.str_dict. simpl.
  unfold Helpers.py_in. rewrite !lookup_fmap.
  destruct (d !! "role") as [r|], (d !! "content") as [c|]; simpl; split;
    try discriminate; try (intros [[? H1] [? H2]]; discriminate); eauto.
Qed.

Lemma forallb_is_valid_message (messages : list (gmap string string)) :
  forallb (fun msg => Helpers.is_valid_message (Helpers.str_dict msg)) messages = true
  <-> Forall Validation.has_role_and_content messages.
Proof.
  induction messages as [|m messages IH]; cbn [forallb].
  - split; [constructor | reflexivity].
  - rewrite andb_true_iff, IH, is_valid_message_str_dict. split.
    + intros [Hm Hrest]. now constructor.
    + intros H. inversion H; subst. now split.
Qed.

Section SdkService.

Context {World : Type}.
Variable is_valid_message : gmap string string -> bool.
Variable new_service : World -> (exn + unit) * World.
Variable create :
  list (gmap string string) -> string -> World -> (exn + OpenAI.ChatCompletion) * World.

#[local] Abbreviation sdk_chat := (Sdk.chat is_valid_message new_service create).

(** The completion of the plain proxy makes its call and then always
    raises: the error of the call, or the [TypeError] of the [await]. *)
Lemma sdk_completion_raises (messages : list (gmap string string)) (model : string)
    (w : World) :
  exists e,
    Sdk.completion create messages model w = (inl e, snd (create messages model w)).
Proof.
  unfold Sdk.completion, try_except, bind, Sdk.await, raise.
  destruct (create messages model w) as [[e|returned] w']; simpl; eauto.
Qed.

(** The plain proxy never puts the text of the exception in its answer. *)
Lemma sdk_chat_500_is_generic (messages : list (gmap string string)) (w : World) e :
  fst (sdk_chat messages w) = Sdk.Raised e ->
  status_code e = 500%Z ->
  detail e = "An error occurred while processing your request".
Proof.
  unfold Sdk.chat. destruct messages as [|m messages]; [intros [= <-]; discriminate|].
  destruct (negb (forallb is_valid_message (m :: messages))); [intros [= <-]; discriminate|].
  destruct (new_service w) as [[e0|[]] w1]; [discriminate|].
  destruct (Sdk.completion create _ "gpt-4" w1) as [[err|answer] w2]; [|discriminate].
  now intros [= <-].
Qed.

(** The two guards of the plain proxy. *)
Lemma sdk_chat_rejects (messages : list (gmap string string)) (w : World) :
  (Sdk.rejected (fst (sdk_chat messages w)) <->
   messages = [] \/ forallb is_valid_message messages = false) /\
  (Sdk.rejected (fst (sdk_chat messages w)) -> snd (sdk_chat messages w) = w).
Proof.
  unfold Sdk.rejected, Sdk.chat. destruct messages as [|m messages].
  { simpl. split; [split|reflexivity]; [now left | intros _; now eexists]. }
  destruct (forallb is_valid_message (m :: messages)); simpl negb; cbv iota.
  - destruct (new_service w) as [[e0|[]] w1]; simpl.
    + split; [split|]; [intros [d H]; discriminate | intros [H|H]; discriminate
                       | intros [d H]; discriminate].
    + destruct (Sdk.completion create _ "gpt-4" w1) as [[err|answer] w2]; simpl;
        (split; [split|]);
        try (intros [d H]; discriminate); intros [H|H]; discriminate.
  - simpl. split; [split|reflexivity]; [now right | intros _; now eexists].
Qed.

End SdkService.

(** ** The claims on concrete runs *)

(** C1, as stated, fails: with a client that answers the responder model
    and refuses the summarizer model, the turn on [hi] from a fresh process
    does not hand the answer of the responder to the caller. *)
Lemma summarizer_failure_discards_answer :
  Turn.summarizer_fails Sample.half_down Sample.hi Sample.fresh /\
  ~ Turn.returns_assistant_message Sample.half_down Sample.hi Sample.fresh.
Proof.
  split.
  - unfold Turn.summarizer_fails. do 6 eexists. repeat split; reflexivity.
  - intros (resp & st1 & _ & H). vm_compute in H. discriminate.
Qed.

Lemma summarizer_failure_fails_turn_witness :
  (exists d, fst (Thread.chat Sample.half_down [Sample.hi] Sample.summarized)
             = inl (mkHTTPException 500 d)) /\
  Thread.previous_summarization
    (snd (Thread.chat Sample.half_down [Sample.hi] Sample.summarized))
  = "Adam said hi.".
Proof.
  apply (summarizer_failure_fails_turn Sample.half_down Sample.hi [] Sample.summarized).
  unfold Turn.summarizer_fails. do 6 eexists. repeat split; reflexivity.
Defined.

Lemma failed_completion_keeps_summary_witness :
  Thread.previous_summarization
    (snd (Thread.chat Sample.half_down [Sample.hi] Sample.summarized))
  = "Adam said hi." /\
  Thread.previous_summarization
    (snd (Thread.chat (Stub.down "Connection error.") [Sample.hi] Sample.summarized))
  = "Adam said hi.".
Proof.
  split.
  - apply (failed_completion_keeps_summary Sample.half_down Sample.hi [] Sample.summarized).
    right. unfold Turn.summarizer_fails. do 6 eexists. repeat split; reflexivity.
  - apply (failed_completion_keeps_summary (Stub.down "Connection error.")
             Sample.hi [] Sample.summarized).
    left. unfold Turn.responder_fails. do 2 eexists. reflexivity.
Defined.

Lemma summary_depends_only_on_triple_witness :
  fst (Thread.generate_summarization Stub.echo Sample.hi Sample.hello Sample.summarized)
  = fst (Thread.generate_summarization Stub.echo Sample.hi_named Sample.hello
           Sample.summarized_early).
Proof.
  apply (summary_depends_only_on_triple Stub.echo).
  - intros messages model stream w1 w2. reflexivity.
  - reflexivity.
  - vm_compute. reflexivity.
  - reflexivity.
Defined.

Lemma summary_update_request_witness :
  snd (Thread.openai_service
         (snd (Thread.generate_summarization (Log.logged Stub.echo)
                 Sample.hi Sample.hello Sample.summarized_logged)))
  = [ Log.mkCall
        [ {[ "role" := "system";
             "content" :=
               "Please summarize the following conversation in a concise manner:" +:+ nl
               +:+ "<previous_summary>Adam said hi.</previous_summary>" +:+ nl
               +:+ "<current_turn> User: hi" +:+ nl
               +:+ "Assistant: Hello. </current_turn>" +:+ nl ]};
          {[ "role" := "user";
             "content" := "Please create/update our conversation summary." ]} ]
        "gpt-4o-mini" false ].
Proof.
  apply (proj1 (summary_update_request Stub.echo Sample.hi Sample.hello
                  Sample.summarized_logged "hi" "Hello." eq_refl eq_refl)).
Defined.

(** C9, as stated, fails: with a client that is out of reach, [demo] ends
    with the 500 of its first turn after one request; it neither runs
    three turns nor returns the answer of a third. *)
Lemma demo_stops_at_first_failure :
  fst (Thread.demo (Log.logged (Stub.down "Connection error.")) Sample.summarized_logged)
  = inl (mkHTTPException 500 "Connection error.") /\
  length (snd (Thread.openai_service
                 (snd (Thread.demo (Log.logged (Stub.down "Connection error."))
                         Sample.summarized_logged)))) = 1 /\
  ~ (exists third,
       fst (Thread.demo (Log.logged (Stub.down "Connection error.")) Sample.summarized_logged)
       = inr (Some third)).
Proof.
  split; [|split].
  - vm_compute. reflexivity.
  - vm_compute. reflexivity.
  - intros [third H]. vm_compute in H. discriminate.
Qed.

(** C7 on the stateful variant: the detail of the 500 is the text of the
    exception the client raised, so two different causes give two
    different bodies. *)
Theorem chat_500_detail_is_exception_text :
  fst (Thread.chat (Stub.down "Incorrect API key provided: sk-proj-1234")
         [Sample.hi] Sample.fresh)
  = inl (mkHTTPException 500 "Incorrect API key provided: sk-proj-1234") /\
  fst (Thread.chat (Stub.down "Connection error.") [Sample.hi] Sample.fresh)
  = inl (mkHTTPException 500 "Connection error.") /\
  fst (Thread.chat Sample.half_down [Sample.hi] Sample.fresh)
  = inl (mkHTTPException 500 "Rate limit reached for gpt-4o-mini").
Proof. repeat split; vm_compute; reflexivity. Qed.

(** * Further properties of the stateful variant *)

Section ThreadTurns.

Context {World : Type}.
Variable create :
  list (gmap string string) -> string -> bool -> World -> (exn + OpenAI.ChatCompletion) * World.

#[local] Abbreviation chat := (Thread.chat create).
#[local] Abbreviation responder_call := (Turn.responder_call create).
#[local] Abbreviation summarizer_call := (Turn.summarizer_call create).

Implicit Types (st : @Thread.State World) (messages : list (gmap string string)).
Implicit Types (user_message : gmap string string).

(** X1: an empty request is answered 400 with the state untouched; any
    other request is answered 200 or 500, never 400. *)
Theorem chat_status_codes messages st :
  (messages = [] ->
   chat messages st = (inl (mkHTTPException 400 "No messages provided"), st)) /\
  (messages <> [] ->
   http_status (fst (chat messages st)) = 200%Z \/
   http_status (fst (chat messages st)) = 500%Z).
Proof.
  split.
  - intros ->. reflexivity.
  - destruct messages as [|user_message rest]; [congruence|]. intros _.
    rewrite chat_unfold.
    destruct (responder_call user_message st) as [[e|resp] st1]; [now right|].
    destruct (Thread.generate_summarization create user_message
                (Thread.choice_message resp) st1) as [[e|new] st2];
      [now right | now left].
Qed.

(** X2: when both completions of a turn succeed, the caller gets the answer
    of the responder, and the summary is replaced by the text of the first
    choice of the summarizer; nothing of the old summary is kept beside
    what the summarizer wrote. *)
Theorem successful_turn_commits_summary user_message rest st resp st1
    user_content assistant_content answer st2 :
  responder_call user_message st = (inr resp, st1) ->
  user_message !! "content" = Some user_content ->
  Thread.choice_message resp !! "content" = Some assistant_content ->
  summarizer_call (Thread.previous_summarization st) user_content assistant_content st1
    = (inr answer, st2) ->
  exists new_summary,
    Thread.choice_message answer !! "content" = Some new_summary /\
    chat (user_message :: rest) st
    = (inr resp, Thread.mkState new_summary (Thread.openai_service st2)).
Proof.
  intros Hr Hu Ha Hs.
  destruct (completion_has_content _ _ _ _ _ _ _ Hs) as [new Hnew].
  exists new. split; [exact Hnew|].
  pose proof (responder_call_keeps_summary _ _ _ _ _ Hr) as Hprev.
  now rewrite chat_unfold, Hr, generate_summarization_unfold, Hu, Ha, Hprev, Hs, Hnew.
Qed.

(** X3: the summary only changes in a turn that is answered 200: a request
    rejected with 400, a missing key, a malformed answer of the client
    leave it as it was. *)
Theorem summary_changes_only_on_200 messages st :
  Thread.previous_summarization (snd (chat messages st))
  <> Thread.previous_summarization st ->
  exists resp, fst (chat messages st) = inr resp.
Proof.
  intros Hchanged. destruct (chat messages st) as [[e|resp] st'] eqn:Hc.
  - contradiction Hchanged. simpl. eapply chat_error_keeps_summary, Hc.
  - now exists resp.
Qed.

(** X4: the stateful variant does not check its messages.  A first message
    without a ['content'] entry is still sent to the responder; when that
    call succeeds the turn fails on the summary update, with a 500 whose
    detail is the [KeyError], and no second request is made. *)
Theorem missing_content_fails_after_responder user_message rest st resp st1 :
  user_message !! "content" = None ->
  responder_call user_message st = (inr resp, st1) ->
  chat (user_message :: rest) st = (inl (mkHTTPException 500 "'content'"), st1).
Proof.
  intros Hu Hr. now rewrite chat_unfold, Hr, generate_summarization_unfold, Hu.
Qed.

(** X5: an answer of the client that holds no choice, or no usage, fails
    the turn with a 500 that carries the Python error, before any summary
    update is tried. *)
Theorem malformed_answer_fails_turn user_message rest st cc w :
  create [Thread.create_system_prompt (Thread.previous_summarization st); user_message]
         "gpt-4o" false (Thread.openai_service st) = (inr cc, w) ->
  (OpenAI.choices cc = [] ->
   chat (user_message :: rest) st
   = (inl (mkHTTPException 500 "list index out of range"),
      Thread.mkState (Thread.previous_summarization st) w)) /\
  (OpenAI.choices cc <> [] -> OpenAI.usage cc = None ->
   chat (user_message :: rest) st
   = (inl (mkHTTPException 500 "'NoneType' object has no attribute 'model_dump'"),
      Thread.mkState (Thread.previous_summarization st) w)).
Proof.
  intros Hc. split.
  - intros Hnil. rewrite chat_unfold. unfold Turn.responder_call.
    now rewrite completion_unfold, Hc, Hnil.
  - intros Hne Hnone. rewrite chat_unfold. unfold Turn.responder_call.
    rewrite completion_unfold, Hc. simpl.
    destruct (OpenAI.choices cc); [congruence|]. now rewrite Hnone.
Qed.

(** X7: [demo] is not all-or-nothing.  When its first turn succeeds and its
    second fails, the run ends with the error of the second turn and the
    process keeps the summary the first turn committed. *)
Theorem demo_keeps_committed_turns st r1 st1 e st2 :
  chat [ {[ "content" := "Hi! I'm Adam"; "role" := "user" ]} ] st = (inr r1, st1) ->
  chat [ {[ "content" := "How are you?"; "role" := "user" ]} ] st1 = (inl e, st2) ->
  Thread.demo create st = (inl e, st2) /\
  Thread.previous_summarization st2 = Thread.previous_summarization st1.
Proof.
  intros H1 H2. split.
  - unfold Thread.demo, Thread.demo_messages.
    now rewrite demo_loop_cons, H1, demo_loop_cons, H2.
  - eapply chat_error_keeps_summary, H2.
Qed.

End ThreadTurns.

Section ThreadRequests.

Context {World : Type}.
Variable create :
  list (gmap string string) -> string -> bool -> World -> (exn + OpenAI.ChatCompletion) * World.

#[local] Abbreviation log_of st := (snd (Thread.openai_service st)).
#[local] Abbreviation logged_chat := (Thread.chat (Log.logged create)).

Implicit Types (st : @Thread.State (World * list Log.call)).

(** The requests of a turn that is answered 200. *)
Lemma chat_200_log user_message rest st resp st' :
  logged_chat (user_message :: rest) st = (inr resp, st') ->
  exists user_content assistant_content,
    user_message !! "content" = Some user_content /\
    Thread.choice_message resp !! "content" = Some assistant_content /\
    log_of st' =
    (log_of st ++
     [ Log.mkCall
         [Thread.create_system_prompt (Thread.previous_summarization st); user_message]
         "gpt-4o" false;
       Log.mkCall
         [ {[ "role" := "system";
              "content" :=
                Thread.summarization_prompt_content
                  (Thread.previous_summarization st) user_content assistant_content ]};
           {[ "role" := "user";
              "content" := "Please create/update our conversation summary." ]} ]
         "gpt-4o-mini" false ])%list.
Proof.
  rewrite chat_unfold. unfold Turn.responder_call.
  match goal with |- context [Thread.completion ?c ?ms ?m ?s st] =>
    pose proof (completion_logs create ms m s st) as Hlog;
    pose proof (completion_keeps_summary (Log.logged create) ms m s st) as Hprev;
    destruct (Thread.completion c ms m s st) as [[e|resp1] st1] end;
    [discriminate|]. simpl in Hlog, Hprev.
  rewrite generate_summarization_unfold.
  destruct (user_message !! "content") as [uc|]; [|discriminate].
  destruct (Thread.choice_message resp1 !! "content") as [ac|] eqn:Hac; [|discriminate].
  unfold Turn.summarizer_call.
  match goal with |- context [Thread.completion ?c ?ms ?m ?s st1] =>
    pose proof (completion_logs create ms m s st1) as Hlog1;
    destruct (Thread.completion c ms m s st1) as [[e|answer] st2] end;
    [discriminate|]. simpl in Hlog1.
  destruct (Thread.choice_message answer !! "content"); [|discriminate].
  intros [= <- <-]. exists uc, ac. repeat split; [exact Hac|]. simpl.
  etrans; [exact Hlog1|]. rewrite Hprev. etrans; [apply (f_equal (fun l => (l ++ _)%list) Hlog)|].
  now rewrite <- app_assoc.
Qed.

(** X6: a turn that is answered 200 has sent the client exactly two
    requests: the responder request for the system prompt and the first
    message, then the summarizer request for the contents of that message
    and of the answer returned to the caller. *)
Theorem turn_200_sends_two_requests user_message rest st resp :
  fst (logged_chat (user_message :: rest) st) = inr resp ->
  exists user_content assistant_content,
    user_message !! "content" = Some user_content /\
    Thread.choice_message resp !! "content" = Some assistant_content /\
    log_of (snd (logged_chat (user_message :: rest) st)) =
    (log_of st ++
     [ Log.mkCall
         [Thread.create_system_prompt (Thread.previous_summarization st); user_message]
         "gpt-4o" false;
       Log.mkCall
         [ {[ "role" := "system";
              "content" :=
                Thread.summarization_prompt_content
                  (Thread.previous_summarization st) user_content assistant_content ]};
           {[ "role" := "user";
              "content" := "Please create/update our conversation summary." ]} ]
         "gpt-4o-mini" false ])%list.
Proof.
  destruct (logged_chat (user_message :: rest) st) as [r st'] eqn:Hc. simpl.
  intros ->. eapply chat_200_log, Hc.
Qed.

(** X8: a run of [demo] that is answered 200 returns an answer, never
    [None], and has sent six requests, the responder and the summarizer
    model in turn. *)
Theorem demo_200_sends_six_requests st answer :
  fst (Thread.demo (Log.logged create) st) = inr answer ->
  (exists resp, answer = Some resp) /\
  map Log.call_model (log_of (snd (Thread.demo (Log.logged create) st))) =
  (map Log.call_model (log_of st) ++
   ["gpt-4o"; "gpt-4o-mini"; "gpt-4o"; "gpt-4o-mini"; "gpt-4o"; "gpt-4o-mini"])%list.
Proof.
  unfold Thread.demo, Thread.demo_messages. rewrite demo_loop_cons.
  destruct (logged_chat _ st) as [[e|r1] st1] eqn:H1; [discriminate|].
  rewrite demo_loop_cons.
  destruct (logged_chat _ st1) as [[e|r2] st2] eqn:H2; [discriminate|].
  rewrite demo_loop_cons.
  destruct (logged_chat _ st2) as [[e|r3] st3] eqn:H3; [discriminate|].
  simpl. intros [= <-]. split; [now exists r3|].
  apply chat_200_log in H3 as (? & ? & _ & _ & ->).
  apply chat_200_log in H2 as (? & ? & _ & _ & ->).
  apply chat_200_log in H1 as (? & ? & _ & _ & ->).
  rewrite !map_app. simpl. rewrite <- !app_assoc. reflexivity.
Qed.

End ThreadRequests.

(** * Further properties of the prompts *)

Lemma append_inj_l (a x y : string) : a +:+ x = a +:+ y -> x = y.
Proof.
  induction a as [|c a IH]; [trivial|]. rewrite !append_cons. intros [= H]. auto.
Qed.

Lemma length_append (a b : string) :
  String.length (a +:+ b) = String.length a + String.length b.
Proof.
  induction a as [|c a IH]; [reflexivity|]. rewrite append_cons. simpl. now rewrite IH.
Qed.

Lemma append_inj_r (t x y : string) : x +:+ t = y +:+ t -> x = y.
Proof.
  revert y. induction x as [|c x IH]; intros [|d y] H.
  - reflexivity.
  - apply (f_equal String.length) in H. rewrite append_cons in H. simpl in H.
    rewrite !length_append in H. simpl in H. lia.
  - apply (f_equal String.length) in H. rewrite append_cons in H. simpl in H.
    rewrite !length_append in H. simpl in H. lia.
  - rewrite !append_cons in H. injection H as -> H. f_equal. auto.
Qed.

(** The content of the system prompt, with the summary between two fixed
    texts. *)
Lemma system_prompt_content (summarization : string) :
  Thread.create_system_prompt summarization !! "content" =
  Some (Prompt.persona_head
        +:+ (if truthy summarization
             then Prompt.block_open +:+ summarization +:+ Prompt.block_close
             else EmptyString)
        +:+ Prompt.persona_tail).
Proof.
  unfold Thread.create_system_prompt. simplify_map_eq.
  destruct (truthy summarization); reflexivity.
Qed.

(** X9: the system prompt determines the summary it was built from: two
    different summaries never give the same system prompt. *)
Theorem create_system_prompt_injective (s1 s2 : string) :
  s1 <> s2 -> Thread.create_system_prompt s1 <> Thread.create_system_prompt s2.
Proof.
  intros Hne H. apply Hne.
  apply (f_equal (fun d : gmap string string => d !! "content")) in H.
  rewrite !system_prompt_content in H. injection H as H.
  apply append_inj_l, append_inj_r in H.
  destruct s1 as [|c1 s1], s2 as [|c2 s2]; simpl in H.
  - reflexivity.
  - discriminate H.
  - discriminate H.
  - now apply append_inj_l, append_inj_r in H.
Qed.

(** X10: the directive of the summary update does not determine the turn it
    was built from.  The contents are pasted without escaping, so text
    that looks like the assistant label can move from the user content to
    the assistant content; and a previous summary that reads as the marker
    gives the directive of an empty summary. *)
Theorem summarization_prompt_ambiguous (previous a b c : string) :
  Thread.summarization_prompt_content previous (a +:+ nl +:+ "Assistant: " +:+ b) c
  = Thread.summarization_prompt_content previous a (b +:+ nl +:+ "Assistant: " +:+ c) /\
  Thread.summarization_prompt_content "No previous summary" a b
  = Thread.summarization_prompt_content EmptyString a b.
Proof.
  split; [|reflexivity].
  unfold Thread.summarization_prompt_content. now rewrite !append_assoc.
Qed.

(** * Further properties of the plain proxy *)

Section SdkAnswers.

Import Helpers.

Context {World : Type}.
Variable is_valid_message : gmap string string -> bool.
Variable new_service : World -> (exn + unit) * World.
Variable create :
  list (gmap string string) -> string -> World -> (exn + OpenAI.ChatCompletion) * World.

(** X11: the plain proxy never answers with a completion.  Its service
    awaits what the synchronous client returned, so for every body that
    passes the guards, once the service object is built, the call to the
    client is made and the handler then answers 500 with the fixed text,
    whether the call failed or succeeded. *)
Theorem sdk_chat_never_returns (messages : list (gmap string string)) (w : World) :
  (forall answer w',
     Sdk.chat is_valid_message new_service create messages w <> (Sdk.Returned answer, w')) /\
  (messages <> [] ->
   forallb is_valid_message messages = true ->
   forall w1, new_service w = (inr tt, w1) ->
   Sdk.chat is_valid_message new_service create messages w =
   (Sdk.Raised (mkHTTPException 500 "An error occurred while processing your request"),
    snd (create (Sdk.system_prompt :: messages) "gpt-4" w1))).
Proof.
  split.
  - intros answer w'. unfold Sdk.chat.
    destruct messages as [|m messages]; [discriminate|].
    destruct (negb (forallb is_valid_message (m :: messages))); [discriminate|].
    destruct (new_service w) as [[e0|[]] w1]; [discriminate|].
    destruct (sdk_completion_raises create ([Sdk.system_prompt] ++ m :: messages)%list
                "gpt-4" w1) as [e ->].
    discriminate.
  - intros Hne Hvalid w1 Hnew. unfold Sdk.chat.
    destruct messages as [|m messages]; [congruence|].
    rewrite Hvalid, Hnew. simpl negb. cbv iota.
    destruct (sdk_completion_raises create ([Sdk.system_prompt] ++ m :: messages)%list
                "gpt-4" w1) as [e ->].
    reflexivity.
Qed.

End SdkAnswers.

Section Validator.

Import Helpers.

(** X12: validity of a message only looks at two entries.  Writing any
    role and a string content into any dict gives a valid message, whatever
    else the dict holds; removing either entry gives an invalid one. *)
Theorem is_valid_message_entries (d : gmap string pyval) (r : pyval) (text : string) :
  is_valid_message (PyDict (<["role" := r]> (<["content" := PyStr text]> d))) = true /\
  is_valid_message (PyDict (delete "role" d)) = false /\
  is_valid_message (PyDict (delete "content" d)) = false.
Proof.
  unfold is_valid_message, py_in. repeat split.
  - by simplify_map_eq.
  - by rewrite lookup_delete_eq.
  - rewrite lookup_delete_eq. by destruct (delete "content" d !! "role").
Qed.

End Validator.

(** * Properties of the streaming proxy *)

Section StreamingService.

Import Helpers.

Context {World : Type}.
Variable create :
  list (gmap string string) -> string -> forall stream : bool, World
  -> (exn + Streaming.create_result stream) * World.
Variable close : World -> (exn + unit) * World.
Variable now : World -> Z * World.
Variable uuid4 : World -> Streaming.UUID * World.
Variable dumps : pyval -> string.

#[local] Abbreviation stream_response :=
  (Streaming.stream_response create close now uuid4 dumps).
#[local] Abbreviation stream_chat := (Streaming.chat create close now uuid4 dumps).
#[local] Abbreviation draw := (Events.draw now uuid4 dumps).
#[local] Abbreviation relay := (Events.relay dumps).

Implicit Types (g : Streaming.Gen World) (w : World) (request : Streaming.ChatRequest).

(** The loop over the chunks yields one event per chunk, in order, and
    ends as the stream ends. *)
Lemma async_for_yield (received : list (gmap string pyval)) (failure : option exn) g :
  Streaming.async_for received failure (fun chunk => Streaming.yield (relay chunk)) g =
  (match failure with Some e => inl e | None => inr tt end,
   Streaming.mkGen (Streaming.gen_world g)
     (Streaming.yielded g ++ map relay received)%list).
Proof.
  revert g. induction received as [|chunk rest IH]; intros g.
  - simpl. rewrite app_nil_r. destruct g, failure; reflexivity.
  - simpl. unfold bind at 1. unfold Streaming.yield at 1, modify. rewrite IH. simpl.
    now rewrite <- app_assoc.
Qed.

(** One call of an infallible collaborator inside the generator. *)
Lemma bind_lift_call {A B} (f : World -> A * World) (k : A -> M (Streaming.Gen World) B) g :
  bind (Streaming.lift (Streaming.call f)) k g =
  k (fst (f (Streaming.gen_world g)))
    (Streaming.mkGen (snd (f (Streaming.gen_world g))) (Streaming.yielded g)).
Proof.
  unfold bind, Streaming.lift, Streaming.call.
  now destruct (f (Streaming.gen_world g)).
Qed.

(** Drawing a chunk and yielding its event. *)
Lemma draw_yield (build : Z -> Z -> Streaming.UUID -> pyval) g :
  (let* t_id := Streaming.lift (Streaming.call now) in
   let* t_created := Streaming.lift (Streaming.call now) in
   let* u := Streaming.lift (Streaming.call uuid4) in
   Streaming.yield (Streaming.sse (dumps (build t_id t_created u)))) g =
  (inr tt,
   Streaming.mkGen (snd (draw build (Streaming.gen_world g)))
     (Streaming.yielded g ++ [fst (draw build (Streaming.gen_world g))])%list).
Proof.
  rewrite !bind_lift_call. unfold Events.draw. simpl.
  destruct (now (Streaming.gen_world g)) as [t1 w1]. simpl.
  destruct (now w1) as [t2 w2]. simpl. destruct (uuid4 w2) as [u w3]. reflexivity.
Qed.

(** Drawing a chunk, yielding its event, and going on. *)
Lemma draw_yield_then {B} (build : Z -> Z -> Streaming.UUID -> pyval)
    (k : M (Streaming.Gen World) B) g :
  (let* t_id := Streaming.lift (Streaming.call now) in
   let* t_created := Streaming.lift (Streaming.call now) in
   let* u := Streaming.lift (Streaming.call uuid4) in
   Streaming.yield (Streaming.sse (dumps (build t_id t_created u))) ;; k) g =
  k (Streaming.mkGen (snd (draw build (Streaming.gen_world g)))
       (Streaming.yielded g ++ [fst (draw build (Streaming.gen_world g))])%list).
Proof.
  rewrite !bind_lift_call. unfold Events.draw. simpl.
  destruct (now (Streaming.gen_world g)) as [t1 w1]. simpl.
  destruct (now w1) as [t2 w2]. simpl. destruct (uuid4 w2) as [u w3]. reflexivity.
Qed.

(** The [try] block of [stream_response]. *)
Lemma stream_body_run (messages : list (gmap string string)) g :
  Streaming.async_with (Streaming.lift close)
    (let* result := Streaming.lift (Streaming.completion create messages "gpt-4" true) in
     Streaming.async_for (Streaming.chunks result) (Streaming.failure result)
       (fun chunk => Streaming.yield (Streaming.sse (dumps (PyDict chunk))))) g =
  let outcome := create messages "gpt-4" true (Streaming.gen_world g) in
  let closed := close (snd outcome) in
  (match fst closed with
   | inl e => inl e
   | inr _ =>
       match fst outcome with
       | inl e => inl e
       | inr result =>
           match Streaming.failure result with
           | Some e => inl e
           | None => inr tt
           end
       end
   end,
   Streaming.mkGen (snd closed)
     (Streaming.yielded g ++ map relay (Events.delivered (fst outcome)))%list).
Proof.
  unfold Streaming.async_with, bind, Streaming.lift, Streaming.completion, try_except, raise.
  simpl.
  destruct (create messages "gpt-4" true (Streaming.gen_world g)) as [[e|result] w4]; simpl.
  - rewrite app_nil_r. destruct (close w4) as [[e'|[]] w5]; reflexivity.
  - fold (Events.relay dumps). rewrite async_for_yield. simpl.
    destruct (Streaming.failure result) as [e|];
      destruct (close w4) as [[e'|[]] w5]; reflexivity.
Qed.

(** A run of [stream_response], spelled out on the answers of its
    collaborators. *)
Lemma stream_response_run (messages : list (gmap string string))
    (conversation_uuid : string) g :
  stream_response messages conversation_uuid g =
  let start := draw Streaming.starting_chunk (Streaming.gen_world g) in
  let outcome := create messages "gpt-4" true (snd start) in
  let closed := close (snd outcome) in
  let sent :=
    (Streaming.yielded g ++ fst start :: map relay (Events.delivered (fst outcome)))%list in
  if Events.broken (fst outcome) (fst closed)
  then
    let report := draw Streaming.error_chunk (snd closed) in
    (inr tt, Streaming.mkGen (snd report) (sent ++ [fst report])%list)
  else (inr tt, Streaming.mkGen (snd closed) sent).
Proof.
  unfold Streaming.stream_response. rewrite draw_yield_then.
  unfold try_except. rewrite stream_body_run. simpl.
  set (start := draw Streaming.starting_chunk (Streaming.gen_world g)).
  destruct (create messages "gpt-4" true (snd start)) as [[e|result] w4]; simpl.
  - destruct (close w4) as [[e'|[]] w5]; simpl; rewrite draw_yield; simpl;
      now rewrite <- !app_assoc.
  - destruct (Streaming.failure result) as [e|];
      destruct (close w4) as [[e'|[]] w5]; simpl; rewrite ?draw_yield; simpl;
      now rewrite <- ?app_assoc.
Qed.

(** X13: [stream_response] never raises and always starts with the
    starting chunk; whatever it yields after it has the framing of a
    server-sent event. *)
Theorem stream_response_completes (messages : list (gmap string string))
    (conversation_uuid : string) g :
  exists g' later,
    stream_response messages conversation_uuid g = (inr tt, g') /\
    Streaming.yielded g' =
    (Streaming.yielded g
     ++ fst (draw Streaming.starting_chunk (Streaming.gen_world g)) :: later)%list /\
    Events.framed (fst (draw Streaming.starting_chunk (Streaming.gen_world g))) /\
    Forall Events.framed later.
Proof.
  assert (Hdraw : forall build w, Events.framed (fst (draw build w))).
  { intros build w. unfold Events.draw.
    destruct (now w) as [t1 w1]. destruct (now w1) as [t2 w2].
    destruct (uuid4 w2) as [u w3]. simpl. now eexists. }
  assert (Hrelay : forall received, Forall Events.framed (map relay received)).
  { intros received. induction received as [|chunk rest IH]; simpl; constructor;
      [now eexists | exact IH]. }
  rewrite stream_response_run. cbv zeta.
  destruct (Events.broken _ _); do 2 eexists; (split; [reflexivity|]); simpl.
  - split; [now rewrite <- app_assoc|]. split; [apply Hdraw|].
    apply Forall_app. split; [apply Hrelay|]. constructor; [apply Hdraw | constructor].
  - split; [reflexivity|]. split; [apply Hdraw | apply Hrelay].
Qed.

(** X14: when the client streams to the end and closes, the events are the
    starting chunk and then one event per chunk of the client, in the order
    of the client, and nothing else. *)
Theorem stream_relays_every_chunk (messages : list (gmap string string))
    (conversation_uuid : string) g
    result w4 w5 :
  create messages "gpt-4" true (snd (draw Streaming.starting_chunk (Streaming.gen_world g)))
    = (inr result, w4) ->
  Streaming.failure result = None ->
  close w4 = (inr tt, w5) ->
  stream_response messages conversation_uuid g =
  (inr tt,
   Streaming.mkGen w5
     (Streaming.yielded g
      ++ fst (draw Streaming.starting_chunk (Streaming.gen_world g))
         :: map relay (Streaming.chunks result))%list).
Proof.
  intros Hc Hf Hclose. rewrite stream_response_run. cbv zeta.
  rewrite Hc. simpl. rewrite Hclose. simpl. now rewrite Hf.
Qed.

(** X15: when the stream breaks (the completion is refused, the iteration
    raises, or closing the client raises), the chunks received so far are
    relayed and the last event is the error chunk.  That event is drawn
    from the clock and the UUID generator alone: nothing of the exception
    is in it. *)
Theorem broken_stream_ends_with_error_chunk (messages : list (gmap string string))
    (conversation_uuid : string) g outcome w4 closed w5 :
  create messages "gpt-4" true (snd (draw Streaming.starting_chunk (Streaming.gen_world g)))
    = (outcome, w4) ->
  close w4 = (closed, w5) ->
  Events.broken outcome closed = true ->
  stream_response messages conversation_uuid g =
  (inr tt,
   Streaming.mkGen (snd (draw Streaming.error_chunk w5))
     (Streaming.yielded g
      ++ fst (draw Streaming.starting_chunk (Streaming.gen_world g))
         :: map relay (Events.delivered outcome)
      ++ [fst (draw Streaming.error_chunk w5)])%list).
Proof.
  intros Hc Hclose Hb. rewrite stream_response_run. cbv zeta.
  rewrite Hc. simpl. rewrite Hclose. simpl. rewrite Hb. now rewrite <- app_assoc.
Qed.

(** X16: a valid request that asks for a stream is always answered 200
    with an event stream, also when the client is out of reach: failures
    are reported inside the stream.  The stream opens with the starting
    chunk, and the header [X-Conversation-UUID] carries the UUID drawn for
    the request. *)
Theorem streamed_chat_answers_200 request w :
  Streaming.messages request <> [] ->
  forallb (fun msg => is_valid_message (str_dict msg)) (Streaming.messages request) = true ->
  Streaming.truthy_flag (Streaming.stream request) = true ->
  exists later w',
    stream_chat request w =
    (inr (Streaming.StreamingResponse
            (fst (draw Streaming.starting_chunk (snd (uuid4 w))) :: later)
            "text/event-stream"
            {[ "X-Conversation-UUID" := Streaming.uuid_str (fst (uuid4 w));
               "Cache-Control" := "no-cache";
               "Connection" := "keep-alive" ]}),
     w').
Proof.
  intros Hne Hvalid Hflag. unfold Streaming.chat.
  destruct (Streaming.messages request) as [|m rest] eqn:Hm; [congruence|].
  rewrite Hvalid. simpl negb. cbv iota.
  destruct (uuid4 w) as [u w1]. rewrite Hflag. rewrite stream_response_run. cbv zeta.
  destruct (Events.broken _ _); simpl; do 2 eexists; reflexivity.
Qed.

(** X17: a valid request that does not ask for a stream is answered with
    the completion of the client under the key [conversationUUID] set to
    the UUID drawn for the request, whatever the completion held under that
    key, and is answered 500 with the fixed text when the completion fails
    or when closing the client fails. *)
Theorem plain_chat_answers request w :
  Streaming.messages request <> [] ->
  forallb (fun msg => is_valid_message (str_dict msg)) (Streaming.messages request) = true ->
  Streaming.truthy_flag (Streaming.stream request) = false ->
  let conversation_uuid := Streaming.uuid_str (fst (uuid4 w)) in
  let outcome :=
    create (Streaming.system_prompt :: Streaming.messages request) "gpt-4" false
           (snd (uuid4 w)) in
  let closed := close (snd outcome) in
  snd (stream_chat request w) = snd closed /\
  match fst outcome, fst closed with
  | inr completion, inr _ =>
      exists body,
        fst (stream_chat request w) = inr (Streaming.JSONResponse body) /\
        body !! "conversationUUID" = Some (PyStr conversation_uuid) /\
        forall key, key <> "conversationUUID" -> body !! key = completion !! key
  | _, _ =>
      fst (stream_chat request w)
      = inl (mkHTTPException 500 "An error occurred while processing your request")
  end.
Proof.
  intros Hne Hvalid Hflag. unfold Streaming.chat.
  destruct (Streaming.messages request) as [|m rest] eqn:Hm; [congruence|].
  rewrite Hvalid. simpl negb. cbv iota.
  destruct (uuid4 w) as [u w1]. rewrite Hflag. cbv zeta. simpl fst. simpl snd. simpl app.
  unfold Streaming.async_with, bind, Streaming.completion, try_except, raise, ret.
  destruct (create (Streaming.system_prompt :: m :: rest) "gpt-4" false w1)
    as [[e|completion] w2]; simpl;
    destruct (close w2) as [[e'|[]] w3]; simpl; try (split; reflexivity).
  split; [reflexivity|]. eexists. split; [reflexivity|]. split.
  - apply lookup_insert_eq.
  - intros key Hkey. now apply lookup_insert_ne.
Qed.

(** The two guards of the streaming proxy: a body is rejected with 400
    exactly when the list is empty or holds a message without a role or
    without a content; a rejected request draws no UUID and makes no call. *)
Lemma streaming_chat_validation request w :
  (Validation.accepted (fst (stream_chat request w)) <->
   Streaming.messages request <> [] /\
   Forall Validation.has_role_and_content (Streaming.messages request)) /\
  (~ Validation.accepted (fst (stream_chat request w)) ->
   snd (stream_chat request w) = w).
Proof.
  unfold Validation.accepted, Streaming.chat.
  destruct (Streaming.messages request) as [|m rest] eqn:Hm.
  { simpl. split; [split|reflexivity]; intros H; [now contradiction H | now destruct H]. }
  rewrite <- forallb_is_valid_message.
  destruct (forallb (fun msg => is_valid_message (str_dict msg)) (m :: rest));
    simpl negb; cbv iota.
  - destruct (uuid4 w) as [u w1].
    destruct (Streaming.truthy_flag (Streaming.stream request)).
    + destruct (stream_response _ _ _) as [r g']. simpl.
      split; [split|]; [intros _; split; [discriminate | reflexivity] | discriminate
                       | intros H; contradiction H; discriminate].
    + destruct (Streaming.async_with _ _ w1) as [[e|r] w2]; simpl;
        (split; [split|]);
        [intros _; split; [discriminate | reflexivity] | discriminate
        | intros H; contradiction H; discriminate
        | intros _; split; [discriminate | reflexivity] | discriminate
        | intros H; contradiction H; discriminate].
  - simpl. split; [split|reflexivity]; intros H;
      [now contradiction H | destruct H; discriminate].
Qed.

End StreamingService.

(** * Validation of the chat request *)

Section ChatValidation.

Context {World : Type}.
Variable stream_create :
  list (gmap string string) -> string -> forall stream : bool, World
  -> (exn + Streaming.create_result stream) * World.
Variable close : World -> (exn + unit) * World.
Variable now : World -> Z * World.
Variable uuid4 : World -> Streaming.UUID * World.
Variable dumps : Helpers.pyval -> string.
Variable is_valid_message : gmap string string -> bool.
Variable new_service : World -> (exn + unit) * World.
Variable create :
  list (gmap string string) -> string -> World -> (exn + OpenAI.ChatCompletion) * World.

(** C6, as the code has it, on the bodies the request model admits
    (messages that are dicts of strings).  The streaming proxy, which
    imports [is_valid_message] of [streaming/helpers.py], accepts a body
    exactly when the list is non-empty and every message has a ['role']
    entry, of any value, and a ['content'] entry.  The plain proxy rejects
    a body exactly when the list is empty or its [is_valid_message] refuses
    a message.  A body rejected with 400 costs no call and leaves the world
    as it was. *)
Theorem chat_validation :
  (forall request w,
     (Validation.accepted
        (fst (Streaming.chat stream_create close now uuid4 dumps request w)) <->
      Streaming.messages request <> [] /\
      Forall Validation.has_role_and_content (Streaming.messages request)) /\
     (~ Validation.accepted
          (fst (Streaming.chat stream_create close now uuid4 dumps request w)) ->
      snd (Streaming.chat stream_create close now uuid4 dumps request w) = w)) /\
  (forall messages w,
     (Sdk.rejected (fst (Sdk.chat is_valid_message new_service create messages w)) <->
      messages = [] \/ forallb is_valid_message messages = false) /\
     (Sdk.rejected (fst (Sdk.chat is_valid_message new_service create messages w)) ->
      snd (Sdk.chat is_valid_message new_service create messages w) = w)).
Proof.
  split.
  - intros request w. apply streaming_chat_validation.
  - intros messages w. apply sdk_chat_rejects.
Qed.

End ChatValidation.

(** * The further properties on concrete runs *)

Lemma chat_status_codes_witness :
  Thread.chat Stub.echo [] Sample.summarized
  = (inl (mkHTTPException 400 "No messages provided"), Sample.summarized) /\
  (http_status (fst (Thread.chat Stub.echo [Sample.hi] Sample.summarized)) = 200%Z \/
   http_status (fst (Thread.chat Stub.echo [Sample.hi] Sample.summarized)) = 500%Z).
Proof.
  split.
  - apply (proj1 (chat_status_codes Stub.echo [] Sample.summarized)). reflexivity.
  - apply (proj2 (chat_status_codes Stub.echo [Sample.hi] Sample.summarized)). discriminate.
Defined.

Lemma successful_turn_commits_summary_witness :
  exists new_summary,
    Thread.choice_message
      {| Thread.choice_message := {[ "role" := "assistant"; "content" := "Noted." ]};
         Thread.choice_index := 0;
         Thread.response_model := "stub";
         Thread.response_usage := OpenAI.mkUsage 1 1 2 |} !! "content" = Some new_summary /\
    Thread.chat (Stub.constant "Noted.") [Sample.hi] Sample.summarized
    = (inr {| Thread.choice_message := {[ "role" := "assistant"; "content" := "Noted." ]};
              Thread.choice_index := 0;
              Thread.response_model := "stub";
              Thread.response_usage := OpenAI.mkUsage 1 1 2 |},
       Thread.mkState new_summary 9).
Proof.
  apply (successful_turn_commits_summary (Stub.constant "Noted.") Sample.hi []
           Sample.summarized _ (Thread.mkState "Adam said hi." 8) "hi" "Noted." _
           (Thread.mkState "Adam said hi." 9));
    reflexivity.
Defined.

Lemma summary_changes_only_on_200_witness :
  exists resp, fst (Thread.chat (Stub.constant "Noted.") [Sample.hi] Sample.summarized) = inr resp.
Proof.
  apply (summary_changes_only_on_200 (Stub.constant "Noted.") [Sample.hi] Sample.summarized).
  vm_compute. discriminate.
Defined.

Lemma missing_content_fails_after_responder_witness :
  Thread.chat (Stub.constant "Noted.") [Faulty.no_content] Sample.summarized
  = (inl (mkHTTPException 500 "'content'"), Thread.mkState "Adam said hi." 8).
Proof.
  eapply (missing_content_fails_after_responder (Stub.constant "Noted.")
            Faulty.no_content [] Sample.summarized);
    reflexivity.
Defined.

Lemma malformed_answer_fails_turn_witness :
  Thread.chat Faulty.no_choice [Sample.hi] Sample.summarized
  = (inl (mkHTTPException 500 "list index out of range"), Thread.mkState "Adam said hi." 8) /\
  Thread.chat Faulty.no_usage [Sample.hi] Sample.summarized
  = (inl (mkHTTPException 500 "'NoneType' object has no attribute 'model_dump'"),
     Thread.mkState "Adam said hi." 8).
Proof.
  split.
  - eapply (proj1 (malformed_answer_fails_turn Faulty.no_choice Sample.hi []
                     Sample.summarized _ 8 eq_refl)).
    reflexivity.
  - eapply (proj2 (malformed_answer_fails_turn Faulty.no_usage Sample.hi []
                     Sample.summarized _ 8 eq_refl)).
    + discriminate.
    + reflexivity.
Defined.

Lemma turn_200_sends_two_requests_witness :
  exists user_content assistant_content,
    Sample.hi !! "content" = Some user_content /\
    Thread.choice_message
      {| Thread.choice_message := {[ "role" := "assistant"; "content" := "Noted." ]};
         Thread.choice_index := 0;
         Thread.response_model := "stub";
         Thread.response_usage := OpenAI.mkUsage 1 1 2 |} !! "content"
    = Some assistant_content /\
    snd (Thread.openai_service
           (snd (Thread.chat (Log.logged (Stub.constant "Noted.")) [Sample.hi]
                   Sample.summarized_logged)))
    = ([] ++
       [ Log.mkCall [Thread.create_system_prompt "Adam said hi."; Sample.hi] "gpt-4o" false;
         Log.mkCall
           [ {[ "role" := "system";
                "content" :=
                  Thread.summarization_prompt_content "Adam said hi."
                    user_content assistant_content ]};
             {[ "role" := "user";
                "content" := "Please create/update our conversation summary." ]} ]
           "gpt-4o-mini" false ])%list.
Proof.
  apply (turn_200_sends_two_requests (Stub.constant "Noted.") Sample.hi []
           Sample.summarized_logged).
  reflexivity.
Defined.

Lemma demo_keeps_committed_turns_witness :
  fst (Thread.demo (Faulty.echo_until 3) Sample.fresh)
  = inl (mkHTTPException 500 "You exceeded your current quota.") /\
  Thread.previous_summarization (snd (Thread.demo (Faulty.echo_until 3) Sample.fresh))
  = Thread.previous_summarization
      (snd (Thread.chat (Faulty.echo_until 3)
              [ {[ "content" := "Hi! I'm Adam"; "role" := "user" ]} ] Sample.fresh)).
Proof.
  destruct (Thread.chat (Faulty.echo_until 3)
              [ {[ "content" := "Hi! I'm Adam"; "role" := "user" ]} ] Sample.fresh)
    as [r1 st1] eqn:H1.
  destruct r1 as [e1|r1]; [vm_compute in H1; discriminate|].
  destruct (Thread.chat (Faulty.echo_until 3)
              [ {[ "content" := "How are you?"; "role" := "user" ]} ] st1)
    as [r2 st2] eqn:H2.
  destruct r2 as [e2|r2].
  - destruct (demo_keeps_committed_turns (Faulty.echo_until 3) Sample.fresh
                r1 st1 e2 st2 H1 H2) as [-> Hprev].
    simpl. split; [|exact Hprev].
    injection H1 as _ <-. vm_compute in H2. injection H2 as <- _. reflexivity.
  - injection H1 as _ <-. vm_compute in H2. discriminate.
Defined.

Lemma demo_200_sends_six_requests_witness :
  (exists resp,
     fst (Thread.demo (Log.logged Stub.echo) Sample.summarized_logged) = inr (Some resp)) /\
  map Log.call_model
    (snd (Thread.openai_service
            (snd (Thread.demo (Log.logged Stub.echo) Sample.summarized_logged))))
  = ["gpt-4o"; "gpt-4o-mini"; "gpt-4o"; "gpt-4o-mini"; "gpt-4o"; "gpt-4o-mini"].
Proof.
  destruct (fst (Thread.demo (Log.logged Stub.echo) Sample.summarized_logged))
    as [e|answer] eqn:H; [vm_compute in H; discriminate|].
  destruct (demo_200_sends_six_requests Stub.echo Sample.summarized_logged answer H)
    as [[resp ->] Hlog].
  split; [now exists resp | exact Hlog].
Defined.

Lemma create_system_prompt_injective_witness :
  Thread.create_system_prompt EmptyString <> Thread.create_system_prompt " " /\
  Thread.create_system_prompt "Adam said hi." <> Thread.create_system_prompt "Adam said hi".
Proof.
  split; apply create_system_prompt_injective; discriminate.
Defined.

Lemma sdk_chat_never_returns_witness :
  Sdk.chat Stub.valid Stub.service_ok (Stub.sdk_constant "Hi.") [Sample.hi] 0
  = (Sdk.Raised (mkHTTPException 500 "An error occurred while processing your request"), 2).
Proof.
  apply (proj2 (sdk_chat_never_returns Stub.valid Stub.service_ok (Stub.sdk_constant "Hi.")
                  [Sample.hi] 0));
    [discriminate | reflexivity | reflexivity].
Defined.

Lemma stream_relays_every_chunk_witness :
  Streaming.stream_response (StreamStub.client StreamStub.two_chunks StreamStub.dump)
    StreamStub.close_ok StreamStub.clock StreamStub.uuid4 StreamStub.dumps
    [Sample.hi] "123e4567-e89b-42d3-a456-426614174000" (Streaming.mkGen 0 [])
  = (inr tt,
     Streaming.mkGen 5
       [ "data: chatcmpl-1700000000" +:+ nl +:+ nl;
         "data: c1" +:+ nl +:+ nl;
         "data: c2" +:+ nl +:+ nl ]).
Proof.
  apply (stream_relays_every_chunk (StreamStub.client StreamStub.two_chunks StreamStub.dump)
           StreamStub.close_ok StreamStub.clock StreamStub.uuid4 StreamStub.dumps
           [Sample.hi] "123e4567-e89b-42d3-a456-426614174000" (Streaming.mkGen 0 [])
           StreamStub.two_chunks 4 5);
    reflexivity.
Defined.

Lemma broken_stream_ends_with_error_chunk_witness :
  Streaming.stream_response (StreamStub.client StreamStub.cut_short StreamStub.dump)
    StreamStub.close_ok StreamStub.clock StreamStub.uuid4 StreamStub.dumps
    [Sample.hi] "123e4567-e89b-42d3-a456-426614174000" (Streaming.mkGen 0 [])
  = (inr tt,
     Streaming.mkGen 8
       [ "data: chatcmpl-1700000000" +:+ nl +:+ nl;
         "data: c1" +:+ nl +:+ nl;
         "data: chatcmpl-1700000005" +:+ nl +:+ nl ]) /\
  Streaming.stream_response (StreamStub.down "Incorrect API key provided")
    StreamStub.close_ok StreamStub.clock StreamStub.uuid4 StreamStub.dumps
    [Sample.hi] "123e4567-e89b-42d3-a456-426614174000" (Streaming.mkGen 0 [])
  = (inr tt,
     Streaming.mkGen 8
       [ "data: chatcmpl-1700000000" +:+ nl +:+ nl;
         "data: chatcmpl-1700000005" +:+ nl +:+ nl ]).
Proof.
  split.
  - apply (broken_stream_ends_with_error_chunk
             (StreamStub.client StreamStub.cut_short StreamStub.dump)
             StreamStub.close_ok StreamStub.clock StreamStub.uuid4 StreamStub.dumps
             [Sample.hi] "123e4567-e89b-42d3-a456-426614174000" (Streaming.mkGen 0 [])
             (inr StreamStub.cut_short) 4 (inr tt) 5);
      reflexivity.
  - apply (broken_stream_ends_with_error_chunk
             (StreamStub.down "Incorrect API key provided")
             StreamStub.close_ok StreamStub.clock StreamStub.uuid4 StreamStub.dumps
             [Sample.hi] "123e4567-e89b-42d3-a456-426614174000" (Streaming.mkGen 0 [])
             (inl (APIError "Incorrect API key provided")) 4 (inr tt) 5);
      reflexivity.
Defined.

Lemma streamed_chat_answers_200_witness :
  exists later w',
    Streaming.chat (StreamStub.down "Incorrect API key provided")
      StreamStub.close_ok StreamStub.clock StreamStub.uuid4 StreamStub.dumps
      StreamStub.streamed 0
    = (inr (Streaming.StreamingResponse
              (("data: chatcmpl-1700000001" +:+ nl +:+ nl) :: later)
              "text/event-stream"
              {[ "X-Conversation-UUID" := "123e4567-e89b-42d3-a456-426614174000";
                 "Cache-Control" := "no-cache";
                 "Connection" := "keep-alive" ]}),
       w').
Proof.
  apply (streamed_chat_answers_200 (StreamStub.down "Incorrect API key provided")
           StreamStub.close_ok StreamStub.clock StreamStub.uuid4 StreamStub.dumps
           StreamStub.streamed 0);
    [discriminate | reflexivity | reflexivity].
Defined.

Lemma plain_chat_answers_witness :
  snd (Streaming.chat (StreamStub.client StreamStub.two_chunks StreamStub.dump)
         StreamStub.close_ok StreamStub.clock StreamStub.uuid4 StreamStub.dumps
         StreamStub.plain 0) = 3 /\
  exists body,
    fst (Streaming.chat (StreamStub.client StreamStub.two_chunks StreamStub.dump)
           StreamStub.close_ok StreamStub.clock StreamStub.uuid4 StreamStub.dumps
           StreamStub.plain 0) = inr (Streaming.JSONResponse body) /\
    body !! "conversationUUID"
    = Some (Helpers.PyStr "123e4567-e89b-42d3-a456-426614174000") /\
    forall key, key <> "conversationUUID" -> body !! key = StreamStub.dump !! key.
Proof.
  apply (plain_chat_answers (StreamStub.client StreamStub.two_chunks StreamStub.dump)
           StreamStub.close_ok StreamStub.clock StreamStub.uuid4 StreamStub.dumps
           StreamStub.plain 0);
    [discriminate | reflexivity | reflexivity].
Defined.

(** C6, as stated, fails: a message whose role is none of system, user and
    assistant is not valid in the words of the specification, and the
    handler does not reject it. *)
Lemma unrecognized_role_is_accepted :
  Validation.spec_valid_body [Helpers.str_dict Sample.banana] = false /\
  Validation.accepted
    (fst (Streaming.chat (StreamStub.client StreamStub.two_chunks StreamStub.dump)
            StreamStub.close_ok StreamStub.clock StreamStub.uuid4 StreamStub.dumps
            (Streaming.mkChatRequest [Sample.banana] None) 0)).
Proof.
  split.
  - vm_compute. reflexivity.
  - vm_compute. discriminate.
Qed.

Lemma chat_validation_witness :
  Validation.accepted
    (fst (Streaming.chat (StreamStub.down "Incorrect API key provided")
            StreamStub.close_ok StreamStub.clock StreamStub.uuid4 StreamStub.dumps
            (Streaming.mkChatRequest [Sample.hi; Sample.banana] (Some false)) 0)) /\
  snd (Streaming.chat (StreamStub.down "Incorrect API key provided")
         StreamStub.close_ok StreamStub.clock StreamStub.uuid4 StreamStub.dumps
         (Streaming.mkChatRequest [Sample.hi; Sample.no_role] (Some true)) 0) = 0 /\
  snd (Sdk.chat Stub.valid Stub.service_ok (Stub.sdk_constant "Hi.")
         [Sample.hi; Faulty.no_content] 0) = 0.
Proof.
  pose proof (chat_validation (StreamStub.down "Incorrect API key provided")
                StreamStub.close_ok StreamStub.clock StreamStub.uuid4 StreamStub.dumps
                Stub.valid Stub.service_ok (Stub.sdk_constant "Hi.")) as [Hstream Hsdk].
  split; [|split].
  - apply (proj1 (Hstream (Streaming.mkChatRequest [Sample.hi; Sample.banana] (Some false)) 0)).
    split; [discriminate|].
    repeat constructor; eexists; reflexivity.
  - apply (proj2 (Hstream (Streaming.mkChatRequest [Sample.hi; Sample.no_role] (Some true)) 0)).
    intros H. apply H. vm_compute. reflexivity.
  - apply (proj2 (Hsdk [Sample.hi; Faulty.no_content] 0)).
    apply (proj1 (Hsdk [Sample.hi; Faulty.no_content] 0)). right. reflexivity.
Defined.
